(** * Channel-gain measurement between two LOG-a-TEC nodes

    A shallow embedding of [logatec.py]: the [NodePair] class with its
    constructor, [measure] and [get_channel_gain].

    Modelling decisions.
    - In the embedding of the methods Python floats are read as exact real
      numbers ([R]); rounding, overflow and subnormals are not represented
      there.  The two non-finite values NumPy can produce in this program
      ([-inf] and [nan], both out of [np.log10]) are kept as constructors of
      [npfloat].  What is proved of the methods uses the shape of the
      computation and the sign of a difference, not the laws by which exact
      sums and powers differ from rounded ones.
    - Where the rounding and the order of the additions decide, the
      arithmetic of [get_channel_gain] is given a second time on IEEE doubles
      ([Ieee]), with the C library's power and logarithm as parameters.
    - The vesna-alh-tools classes ([SignalGenerator], [SpectrumSensor] and
      their configuration lists) are not part of the program; they are taken
      as a [Testbed] interface whose calls transform an abstract [World].
    - Every call that leaves the program (clock, node, sleep, print) is
      recorded in a log, oldest event first.
    - The [while] loop of [measure] is run with a bound on its number of
      iterations; reaching the bound is reported as [Diverge], never as a
      result. *)

From Stdlib Require Import Floats String Reals Lra Lia Bool Arith List Permutation.
Import ListNotations.

Local Open Scope R_scope.

(** ** Numeric layer *)

Module Np.

(** Values NumPy may hand back from [np.log10] in this program. *)
Inductive npfloat : Type :=
| Finite (r : R)
| NegInf
| NaN.

(** [np.log10] on a scalar: [-inf] at zero and [nan] below zero (NumPy warns
    and continues).  Above zero the value is the exact logarithm, not the
    double nearest to it. *)
Definition log10 (x : R) : npfloat :=
  match total_order_T 0 x with
  | inleft (left _) => Finite (ln x / ln 10)
  | inleft (right _) => NegInf
  | inright _ => NaN
  end.

(** Scalar times an [npfloat]; the scalar is positive wherever it is used. *)
Definition scale (k : R) (v : npfloat) : npfloat :=
  match v with
  | Finite r => Finite (k * r)
  | NegInf => NegInf
  | NaN => NaN
  end.

(** [np.sum] of a one-dimensional array, as an exact sum: the rounding of
    each addition, and with it the order of the entries, is not represented
    (see [Ieee.mean] for the sum on doubles). *)
Definition sum (xs : list R) : R := fold_right Rplus 0 xs.

(** [np.mean] of a one-dimensional array: the exact sum over the exact
    count. *)
Definition mean (xs : list R) : R := sum xs / INR (length xs).

(** [np.std]: square root of the mean squared deviation from the mean. *)
Definition std (xs : list R) : R :=
  sqrt (mean (map (fun x => (x - mean xs) * (x - mean xs)) xs)).

(** [np.array(data)[:,0]].  The array is two-dimensional only when all rows
    have the same length; the slice needs a second axis of size at least
    one.  Every other shape raises [IndexError], given here as [None]. *)
Definition column0 (data : list (list R)) : option (list R) :=
  match data with
  | [] => None
  | row :: rest =>
      match row with
      | [] => None
      | _ :: _ =>
          if forallb (fun r => Nat.eqb (length r) (length row)) rest
          then Some (map (hd 0) data)
          else None
      end
  end.

End Np.

(** The two local helpers of [get_channel_gain], over exact reals: [10.**x]
    is the exact power, without rounding, underflow or overflow. *)

Definition db_to_mw (db : R) : R := Rpower 10 (db / 10).

Definition mw_to_db (mw : R) : Np.npfloat := Np.scale 10 (Np.log10 mw).

(** ** The same arithmetic on doubles

    Lines 96 to 133 once more, on the IEEE binary64 numbers Python and NumPy
    compute with.  Sum, difference, product and quotient are the rounded ones
    of the processor; [10.**x] and [np.log10] are functions of the C library
    and are parameters.  [np.mean] adds the entries from the first to the
    last, starting from zero, and divides by their number, which is what
    NumPy does for a series of fewer than eight entries. *)

Module Ieee.

Section Arithmetic.

Variable pow : float -> float -> float.
Variable log10 : float -> float.

Definition db_to_mw (db : float) : float := pow 10%float (db / 10)%float.

Definition mw_to_db (mw : float) : float := (10 * log10 mw)%float.

Definition count (xs : list float) : float :=
  PrimFloat.of_uint63 (Uint63.of_Z (Z.of_nat (length xs))).

Definition mean (xs : list float) : float :=
  (fold_left PrimFloat.add xs 0 / count xs)%float.

(** The value [get_channel_gain] returns for two series and a transmit
    power. *)
Definition h_mean_db (pnoise_dbm prx_dbm : list float) (ptx_dbm : float) : float :=
  let ptx_mw := db_to_mw ptx_dbm in
  let pnoise_mw := map db_to_mw pnoise_dbm in
  let prx_mw := map db_to_mw prx_dbm in
  let pnoise_mw_mean := mean pnoise_mw in
  let prx_mw_mean := mean prx_mw in
  let h_mean := ((prx_mw_mean - pnoise_mw_mean) / ptx_mw)%float in
  mw_to_db h_mean.

End Arithmetic.

(** What is used of the C library: three powers of ten that are doubles,
    and the logarithm at zero and at one. *)
Definition c_library (pow : float -> float -> float) (log10 : float -> float) : Prop :=
  pow 10%float 0%float = 1%float /\
  pow 10%float 1%float = 10%float /\
  pow 10%float 16%float = 1e16%float /\
  log10 0%float = neg_infinity /\
  log10 1%float = 0%float.

(** A power and a logarithm that are right at those five points. *)
Definition pow_at_points (x y : float) : float :=
  if PrimFloat.eqb y 0 then 1%float
  else if PrimFloat.eqb y 1 then 10%float
  else if PrimFloat.eqb y 16 then 1e16%float
  else nan.

Definition log10_at_points (x : float) : float :=
  if PrimFloat.eqb x 0 then neg_infinity
  else if PrimFloat.eqb x 1 then 0%float
  else nan.

End Ieee.

(** ** The testbed interface *)

(** [SignalGeneratorProgram(tx_config, time_start, time_duration)]. *)
Record SignalGeneratorProgram (TxConfig : Type) : Type := mkSignalGeneratorProgram {
  sgp_tx_config : TxConfig;
  sgp_time_start : R;
  sgp_time_duration : Z
}.
Arguments mkSignalGeneratorProgram {TxConfig}.
Arguments sgp_tx_config {TxConfig}.
Arguments sgp_time_start {TxConfig}.
Arguments sgp_time_duration {TxConfig}.

(** [SpectrumSensorProgram(sweep_config, time_start, time_duration, n)]; the
    program passes [1] as the fourth argument. *)
Record SpectrumSensorProgram (SweepConfig : Type) : Type := mkSpectrumSensorProgram {
  ssp_sweep_config : SweepConfig;
  ssp_time_start : R;
  ssp_time_duration : Z;
  ssp_fourth : Z
}.
Arguments mkSpectrumSensorProgram {SweepConfig}.
Arguments ssp_sweep_config {SweepConfig}.
Arguments ssp_time_start {SweepConfig}.
Arguments ssp_time_duration {SweepConfig}.
Arguments ssp_fourth {SweepConfig}.

(** Time at which a program ends. *)
Definition sgp_time_stop {C : Type} (p : SignalGeneratorProgram C) : R :=
  sgp_time_start p + IZR (sgp_time_duration p).

Definition ssp_time_stop {C : Type} (p : SpectrumSensorProgram C) : R :=
  ssp_time_start p + IZR (ssp_time_duration p).

(** What the program imports from [vesna.alh] and from [time].  The lookups on
    a configuration list are local and pure; every other call acts on the
    [World]. *)
Record Testbed : Type := mkTestbed {
  Node : Type;
  TxConfig : Type;
  SweepConfig : Type;
  GeneratorConfigList : Type;
  SensorConfigList : Type;
  SensorResult : Type;
  World : Type;
  get_tx_config : GeneratorConfigList -> R -> R -> option TxConfig;
  get_sweep_config : SensorConfigList -> R -> R -> R -> option SweepConfig;
  get_data : SensorResult -> list (list R);
  time_time : World -> R * World;
  time_sleep : R -> World -> World;
  generator_get_config_list : Node -> World -> GeneratorConfigList * World;
  sensor_get_config_list : Node -> World -> SensorConfigList * World;
  generator_program : Node -> SignalGeneratorProgram TxConfig -> World -> World;
  sensor_program : Node -> SpectrumSensorProgram SweepConfig -> World -> World;
  sensor_is_complete :
    Node -> SpectrumSensorProgram SweepConfig -> World -> bool * World;
  sensor_retrieve :
    Node -> SpectrumSensorProgram SweepConfig -> World -> SensorResult * World
}.

Definition GenProgram (tb : Testbed) : Type := SignalGeneratorProgram (TxConfig tb).

Definition SensProgram (tb : Testbed) : Type := SpectrumSensorProgram (SweepConfig tb).

(** Exceptions of the program: the generic [Exception] it raises itself, and
    the two the interpreter raises on its behalf. *)
Inductive exn : Type :=
| Exception (msg : string)
| IndexError
| TypeError.

Definition cannot_scan : exn :=
  Exception "Node can not scan specified frequency range.".

(** Result of running a method. *)
Inductive outcome (A : Type) : Type :=
| Return (a : A)
| Raise (e : exn)
| Diverge.
Arguments Return {A}.
Arguments Raise {A}.
Arguments Diverge {A}.

(** ** The program *)

Section Logatec.

Variable tb : Testbed.

(** Lines written by [print]. *)
Inductive message : Type :=
| MsgWaiting
| MsgNoise (db : Np.npfloat) (mean std : R)
| MsgRx (db : Np.npfloat) (mean std : R)
| MsgH (h_db : Np.npfloat).

(** Calls that leave the program. *)
Inductive event : Type :=
| EvTime (now : R)
| EvGeneratorGetConfigList (n : Node tb)
| EvSensorGetConfigList (n : Node tb)
| EvGeneratorProgram (n : Node tb) (p : GenProgram tb)
| EvSensorProgram (n : Node tb) (p : SensProgram tb)
| EvIsComplete (n : Node tb) (p : SensProgram tb) (b : bool)
| EvRetrieve (n : Node tb) (p : SensProgram tb)
| EvSleep (d : R)
| EvPrint (m : message).

(** Attributes of a [NodePair] object. *)
Record NodePair : Type := mkNodePair {
  generator : Node tb;
  generator_cl : GeneratorConfigList tb;
  sensor : Node tb;
  sensor_cl : SensorConfigList tb
}.

(** The object, the world it talks to, and what it has done so far. *)
Record State : Type := mkState {
  self : NodePair;
  world : World tb;
  log : list event
}.

Definition M (A : Type) : Type := State -> outcome A * State.

Definition ret {A : Type} (a : A) : M A := fun st => (Return a, st).

Definition raise {A : Type} (e : exn) : M A := fun st => (Raise e, st).

Definition bind {A B : Type} (m : M A) (k : A -> M B) : M B :=
  fun st =>
    match m st with
    | (Return a, st') => k a st'
    | (Raise e, st') => (Raise e, st')
    | (Diverge, st') => (Diverge, st')
    end.

Notation "x <- m ;; k" := (bind m (fun x => k))
  (at level 61, m at next level, right associativity).
Notation "m ;;; k" := (bind m (fun _ => k))
  (at level 61, right associativity).

Definition get_self : M NodePair := fun st => (Return (self st), st).

(** A call that answers [a], moves the world to [w] and is logged as [ev]. *)
Definition record {A : Type} (a : A) (w : World tb) (ev : event) : State -> outcome A * State :=
  fun st => (Return a, mkState (self st) w (log st ++ [ev])).

Definition call_time : M R :=
  fun st => let (now, w) := time_time tb (world st) in record now w (EvTime now) st.

Definition call_sleep (d : R) : M unit :=
  fun st => record tt (time_sleep tb d (world st)) (EvSleep d) st.

Definition print (m : message) : M unit :=
  fun st => record tt (world st) (EvPrint m) st.

Definition call_generator_program (n : Node tb) (p : GenProgram tb) : M unit :=
  fun st => record tt (generator_program tb n p (world st)) (EvGeneratorProgram n p) st.

Definition call_sensor_program (n : Node tb) (p : SensProgram tb) : M unit :=
  fun st => record tt (sensor_program tb n p (world st)) (EvSensorProgram n p) st.

Definition call_is_complete (n : Node tb) (p : SensProgram tb) : M bool :=
  fun st =>
    let (b, w) := sensor_is_complete tb n p (world st) in
    record b w (EvIsComplete n p b) st.

Definition call_retrieve (n : Node tb) (p : SensProgram tb) : M (SensorResult tb) :=
  fun st =>
    let (r, w) := sensor_retrieve tb n p (world st) in
    record r w (EvRetrieve n p) st.

(** [NodePair.__init__]: wrap both nodes and ask each for its list of
    hardware configurations. *)
Definition NodePair_init (txnode rxnode : Node tb) (w : World tb) : State :=
  let (gcl, w1) := generator_get_config_list tb txnode w in
  let (scl, w2) := sensor_get_config_list tb rxnode w1 in
  mkState (mkNodePair txnode gcl rxnode scl) w2
          [EvGeneratorGetConfigList txnode; EvSensorGetConfigList rxnode].

(** [while not self.sensor.is_complete(sensor_p): print "waiting...";
    time.sleep(2)], cut off after [fuel] tests of the condition. *)
Fixpoint wait_complete (fuel : nat) (n : Node tb) (p : SensProgram tb) : M unit :=
  match fuel with
  | O => fun st => (Diverge, st)
  | S fuel' =>
      done <- call_is_complete n p ;;
      if done then ret tt
      else print MsgWaiting ;;; call_sleep 2 ;;; wait_complete fuel' n p
  end.

(** [NodePair.measure]. *)
Definition measure (fuel : nat) (f_hz : R) (ptx_dbm : option R) : M (list R) :=
  now <- call_time ;;
  match ptx_dbm with
  | Some p =>
      me <- get_self ;;
      match get_tx_config tb (generator_cl me) f_hz p with
      | None => raise cannot_scan
      | Some tx_config =>
          call_generator_program (generator me)
            (mkSignalGeneratorProgram tx_config (now + 1) 14)
      end
  | None => ret tt
  end ;;;
  me <- get_self ;;
  match get_sweep_config tb (sensor_cl me) f_hz f_hz 400000 with
  | None => raise cannot_scan
  | Some sweep_config =>
      let sensor_p := mkSpectrumSensorProgram sweep_config (now + 3) 10 1 in
      call_sensor_program (sensor me) sensor_p ;;;
      wait_complete fuel (sensor me) sensor_p ;;;
      result <- call_retrieve (sensor me) sensor_p ;;
      match Np.column0 (get_data tb result) with
      | Some c => ret c
      | None => raise IndexError
      end
  end.

(** [NodePair.get_channel_gain].  A [ptx_dbm] of [None] gets as far as
    [db_to_mw(ptx_dbm)], where dividing [None] raises [TypeError]. *)
Definition get_channel_gain (fuel : nat) (f_hz : R) (ptx_dbm : option R)
  : M Np.npfloat :=
  pnoise_dbm <- measure fuel f_hz None ;;
  prx_dbm <- measure fuel f_hz ptx_dbm ;;
  match ptx_dbm with
  | None => raise TypeError
  | Some p =>
      let ptx_mw := db_to_mw p in
      let pnoise_mw := map db_to_mw pnoise_dbm in
      let prx_mw := map db_to_mw prx_dbm in
      let pnoise_mw_mean := Np.mean pnoise_mw in
      let prx_mw_mean := Np.mean prx_mw in
      print (MsgNoise (mw_to_db pnoise_mw_mean) pnoise_mw_mean (Np.std pnoise_mw)) ;;;
      print (MsgRx (mw_to_db prx_mw_mean) prx_mw_mean (Np.std prx_mw)) ;;;
      let h_mean := (prx_mw_mean - pnoise_mw_mean) / ptx_mw in
      let h_mean_db := mw_to_db h_mean in
      print (MsgH h_mean_db) ;;;
      ret h_mean_db
  end.

(** [main], with the two proxied nodes as arguments. *)
Definition main (fuel : nat) (txnode rxnode : Node tb) (w : World tb)
  : outcome Np.npfloat * State :=
  get_channel_gain fuel 2425000000 (Some 0) (NodePair_init txnode rxnode w).

(** *** Reading the log *)

Definition is_config_query (e : event) : bool :=
  match e with
  | EvGeneratorGetConfigList _ | EvSensorGetConfigList _ => true
  | _ => false
  end.

Definition is_generator_call (e : event) : bool :=
  match e with
  | EvGeneratorGetConfigList _ | EvGeneratorProgram _ _ => true
  | _ => false
  end.

Definition is_program (e : event) : bool :=
  match e with
  | EvGeneratorProgram _ _ | EvSensorProgram _ _ => true
  | _ => false
  end.

(** Calls of the polling loop and of the retrieval after it. *)
Definition is_poll (e : event) : bool :=
  match e with
  | EvIsComplete _ _ _ | EvRetrieve _ _ | EvSleep _ => true
  | _ => false
  end.

(** The three lines of the report of [get_channel_gain]. *)
Definition is_report (e : event) : bool :=
  match e with
  | EvPrint (MsgNoise _ _ _) | EvPrint (MsgRx _ _ _) | EvPrint (MsgH _) => true
  | _ => false
  end.

(** One turn of the polling loop whose test came out false. *)
Definition waiting_round (n : Node tb) (p : SensProgram tb) : list event :=
  [EvIsComplete n p false; EvPrint MsgWaiting; EvSleep 2].

Fixpoint waiting_rounds (k : nat) (n : Node tb) (p : SensProgram tb) : list event :=
  match k with
  | O => []
  | S k' => waiting_round n p ++ waiting_rounds k' n p
  end.

(** The world after [k] such turns. *)
Fixpoint after_rounds (k : nat) (n : Node tb) (p : SensProgram tb) (w : World tb)
  : World tb :=
  match k with
  | O => w
  | S k' =>
      after_rounds k' n p (time_sleep tb 2 (snd (sensor_is_complete tb n p w)))
  end.

(** The node answers "not complete" to each of the next [k] polls. *)
Definition busy_for (k : nat) (n : Node tb) (p : SensProgram tb) (w : World tb) : Prop :=
  forall i, (i < k)%nat ->
    fst (sensor_is_complete tb n p (after_rounds i n p w)) = false.

(** Whether the transmit lookup of [measure] comes back empty. *)
Definition tx_mismatch (me : NodePair) (f_hz : R) (ptx_dbm : option R) : bool :=
  match ptx_dbm with
  | Some p =>
      match get_tx_config tb (generator_cl me) f_hz p with
      | Some _ => false
      | None => true
      end
  | None => false
  end.

(** What [measure] sends to the transmitting node. *)
Definition tx_events (me : NodePair) (now f_hz : R) (ptx_dbm : option R) : list event :=
  match ptx_dbm with
  | Some p =>
      match get_tx_config tb (generator_cl me) f_hz p with
      | Some tx_config =>
          [EvGeneratorProgram (generator me)
             (mkSignalGeneratorProgram tx_config (now + 1) 14)]
      | None => []
      end
  | None => []
  end.

(** Every way one call of [measure] can go, with the events it adds to the
    log: [now] is the clock reading, [me] the object, [fuel] the bound put on
    the polling loop. *)
Inductive measure_run (fuel : nat) (me : NodePair) (now f_hz : R) (ptx_dbm : option R)
  : outcome (list R) -> list event -> Prop :=
| run_tx_mismatch :
    tx_mismatch me f_hz ptx_dbm = true ->
    measure_run fuel me now f_hz ptx_dbm (Raise cannot_scan) [EvTime now]
| run_rx_mismatch :
    tx_mismatch me f_hz ptx_dbm = false ->
    get_sweep_config tb (sensor_cl me) f_hz f_hz 400000 = None ->
    measure_run fuel me now f_hz ptx_dbm (Raise cannot_scan)
      (EvTime now :: tx_events me now f_hz ptx_dbm)
| run_waiting : forall sweep_config,
    tx_mismatch me f_hz ptx_dbm = false ->
    get_sweep_config tb (sensor_cl me) f_hz f_hz 400000 = Some sweep_config ->
    let sensor_p := mkSpectrumSensorProgram sweep_config (now + 3) 10 1 in
    measure_run fuel me now f_hz ptx_dbm Diverge
      (EvTime now :: tx_events me now f_hz ptx_dbm
         ++ EvSensorProgram (sensor me) sensor_p
         :: waiting_rounds fuel (sensor me) sensor_p)
| run_retrieved : forall sweep_config k result,
    (k < fuel)%nat ->
    tx_mismatch me f_hz ptx_dbm = false ->
    get_sweep_config tb (sensor_cl me) f_hz f_hz 400000 = Some sweep_config ->
    let sensor_p := mkSpectrumSensorProgram sweep_config (now + 3) 10 1 in
    measure_run fuel me now f_hz ptx_dbm
      match Np.column0 (get_data tb result) with
      | Some c => Return c
      | None => Raise IndexError
      end
      (EvTime now :: tx_events me now f_hz ptx_dbm
         ++ EvSensorProgram (sensor me) sensor_p
         :: waiting_rounds k (sensor me) sensor_p
         ++ [EvIsComplete (sensor me) sensor_p true;
             EvRetrieve (sensor me) sensor_p]).

(** The world in which [measure] enters its polling loop, when it gets that
    far: after the clock reading, the transmit set-up and the sensing
    program. *)
Definition loop_entry (me : NodePair) (f_hz : R) (ptx_dbm : option R)
           (sweep_config : SweepConfig tb) (w : World tb) : World tb :=
  let (now, w0) := time_time tb w in
  let w1 :=
    match ptx_dbm with
    | Some p =>
        match get_tx_config tb (generator_cl me) f_hz p with
        | Some tx_config =>
            generator_program tb (generator me)
              (mkSignalGeneratorProgram tx_config (now + 1) 14) w0
        | None => w0
        end
    | None => w0
    end in
  sensor_program tb (sensor me)
    (mkSpectrumSensorProgram sweep_config (now + 3) 10 1) w1.

(** *** The estimate in closed form *)

(** Mean linear power of a series of dBm readings. *)
Definition mean_mw (series_dbm : list R) : R := Np.mean (map db_to_mw series_dbm).

(** [(mean(signal_mw) - mean(noise_mw)) / tx_power_mw]. *)
Definition gain_linear (noise_dbm signal_dbm : list R) (ptx_dbm : R) : R :=
  (mean_mw signal_dbm - mean_mw noise_dbm) / db_to_mw ptx_dbm.

(** The three lines [get_channel_gain] prints once both series are in. *)
Definition report (noise_dbm signal_dbm : list R) (ptx_dbm : R) : list event :=
  [EvPrint (MsgNoise (mw_to_db (mean_mw noise_dbm)) (mean_mw noise_dbm)
              (Np.std (map db_to_mw noise_dbm)));
   EvPrint (MsgRx (mw_to_db (mean_mw signal_dbm)) (mean_mw signal_dbm)
              (Np.std (map db_to_mw signal_dbm)));
   EvPrint (MsgH (mw_to_db (gain_linear noise_dbm signal_dbm ptx_dbm)))].

End Logatec.

Arguments EvTime {tb}.
Arguments EvGeneratorGetConfigList {tb}.
Arguments EvSensorGetConfigList {tb}.
Arguments EvGeneratorProgram {tb}.
Arguments EvSensorProgram {tb}.
Arguments EvIsComplete {tb}.
Arguments EvRetrieve {tb}.
Arguments EvSleep {tb}.
Arguments EvPrint {tb}.
Arguments mkNodePair {tb}.
Arguments generator {tb}.
Arguments generator_cl {tb}.
Arguments sensor {tb}.
Arguments sensor_cl {tb}.
Arguments mkState {tb}.
Arguments self {tb}.
Arguments world {tb}.
Arguments log {tb}.
Arguments is_config_query {tb}.
Arguments is_generator_call {tb}.
Arguments is_program {tb}.
Arguments is_poll {tb}.
Arguments is_report {tb}.

(** ** A bench to run the program on

    A small testbed: each node either covers every frequency or none, the
    sensor needs a fixed number of polls after being programmed, and the
    readings to hand out are queued in advance. *)

Module Lab.

Record bench : Type := mkBench {
  clock : R;
  tx_band : bool;
  rx_band : bool;
  latency : nat;
  busy : nat;
  on_air : option R;
  shelf : list (list (list R))
}.

Definition lookup_tx (cl : bool) (f_hz p_dbm : R) : option (R * R) :=
  if cl then Some (f_hz, p_dbm) else None.

Definition lookup_sweep (cl : bool) (start stop step : R) : option (R * R * R) :=
  if cl then Some (start, stop, step) else None.

Definition sleep (d : R) (w : bench) : bench :=
  mkBench (clock w + d) (tx_band w) (rx_band w) (latency w) (Nat.pred (busy w))
    (on_air w) (shelf w).

(** Programming the generator puts its power on the air. *)
Definition transmit (p : SignalGeneratorProgram (R * R)) (w : bench) : bench :=
  mkBench (clock w) (tx_band w) (rx_band w) (latency w) (busy w)
    (Some (snd (sgp_tx_config p))) (shelf w).

(** Programming the sensor starts its countdown. *)
Definition arm (w : bench) : bench :=
  mkBench (clock w) (tx_band w) (rx_band w) (latency w) (latency w)
    (on_air w) (shelf w).

(** Readings come off the shelf while it lasts; after that the sensor sees
    the transmission 40 dB down, or -80 dBm of noise when nothing is on the
    air. *)
Definition take (w : bench) : list (list R) * bench :=
  match shelf w with
  | data :: rest =>
      (data,
       mkBench (clock w) (tx_band w) (rx_band w) (latency w) (busy w) (on_air w) rest)
  | [] =>
      ([[match on_air w with Some p => p - 40 | None => -80 end]], w)
  end.

Definition testbed : Testbed :=
  mkTestbed nat (R * R) (R * R * R) bool bool (list (list R)) bench
    lookup_tx
    lookup_sweep
    (fun data => data)
    (fun w => (clock w, w))
    sleep
    (fun _ w => (tx_band w, w))
    (fun _ w => (rx_band w, w))
    (fun _ p w => transmit p w)
    (fun _ _ w => arm w)
    (fun _ _ w => (Nat.eqb (busy w) 0, w))
    (fun _ _ w => take w).

(** Both nodes cover the band; the sensor completes on the third poll; the
    shelf holds a noise series and a signal series. *)
Definition room : bench :=
  mkBench 0 true true 2 0 None [[[-80]; [-82]; [-79]]; [[-40]; [-41]; [-39]]].

(** Nothing on the shelf: readings follow what is on the air. *)
Definition open_room : bench := mkBench 0 true true 1 0 None [].

(** The receiving node does not cover the band. *)
Definition deaf_room : bench := mkBench 0 true false 2 0 None [].

(** The transmitting node does not cover the band. *)
Definition mute_room : bench := mkBench 0 false true 2 0 None [].

(** The sensor reads the same power whether or not anything is transmitted. *)
Definition flat_room : bench :=
  mkBench 0 true true 0 0 None [[[-80]]; [[-80]]; [[-80]]].

(** The signal comes in below the noise. *)
Definition faded_room : bench :=
  mkBench 0 true true 0 0 None [[[-80]]; [[-90]]].

(** The two nodes of [main] and the frequency it measures at. *)
Definition txnode : Node testbed := 51%nat.
Definition rxnode : Node testbed := 53%nat.
Definition f_hz : R := 2425000000.

Definition start (w : bench) : State testbed := NodePair_init testbed txnode rxnode w.

End Lab.

(** * Properties *)

Section Runs.

Variable tb : Testbed.

Lemma after_rounds_S (k : nat) (n : Node tb) (p : SensProgram tb) (w : World tb) :
  after_rounds tb (S k) n p w =
  time_sleep tb 2 (snd (sensor_is_complete tb n p (after_rounds tb k n p w))).
Proof.
  revert w; induction k as [|k IH]; intro w.
  - reflexivity.
  - change (after_rounds tb (S (S k)) n p w)
      with (after_rounds tb (S k) n p
              (time_sleep tb 2 (snd (sensor_is_complete tb n p w)))).
    rewrite IH. reflexivity.
Qed.

Lemma busy_for_step (k : nat) (n : Node tb) (p : SensProgram tb) (w : World tb) :
  fst (sensor_is_complete tb n p w) = false ->
  busy_for tb k n p (time_sleep tb 2 (snd (sensor_is_complete tb n p w))) ->
  busy_for tb (S k) n p w.
Proof.
  intros H0 Hk [|i] Hi.
  - exact H0.
  - apply (Hk i). lia.
Qed.

(** The polling loop: what it logs, what it leaves untouched, and when it
    stops. *)
Lemma wait_complete_run (fuel : nat) (n : Node tb) (p : SensProgram tb) :
  forall st o st',
    wait_complete tb fuel n p st = (o, st') ->
    self st' = self st /\
    exists k,
      busy_for tb k n p (world st) /\
      ((o = Diverge /\ k = fuel /\
        world st' = after_rounds tb k n p (world st) /\
        log st' = log st ++ waiting_rounds tb k n p)
       \/
       (o = Return tt /\ (k < fuel)%nat /\
        sensor_is_complete tb n p (after_rounds tb k n p (world st)) = (true, world st') /\
        log st' = log st ++ waiting_rounds tb k n p ++ [EvIsComplete n p true])).
Proof.
  induction fuel as [|fuel IH]; intros st o st' H.
  - inversion H; subst. split; [reflexivity|].
    exists 0%nat. split; [intros i Hi; lia|].
    left. cbn. rewrite app_nil_r. auto.
  - cbn in H. unfold bind, call_is_complete, record in H.
    destruct (sensor_is_complete tb n p (world st)) as [b w] eqn:E.
    destruct b.
    + inversion H; subst. split; [reflexivity|].
      exists 0%nat. split; [intros i Hi; lia|].
      right. cbn. rewrite E. repeat split; auto. lia.
    + cbn in H. apply IH in H. cbn in H. destruct H as [Hs [k [Hb H]]].
      split; [exact Hs|].
      assert (Ew : time_sleep tb 2 w =
                   time_sleep tb 2 (snd (sensor_is_complete tb n p (world st))))
        by (rewrite E; reflexivity).
      exists (S k). split.
      * apply busy_for_step; [rewrite E; reflexivity|]. rewrite <- Ew. exact Hb.
      * cbn [after_rounds waiting_rounds]. rewrite <- Ew.
        destruct H as [[Ho [Hk [Hw Hl]]] | [Ho [Hk [Hw Hl]]]].
        -- left. repeat split; auto. rewrite Hl.
           unfold waiting_round. rewrite <- !app_assoc. reflexivity.
        -- right. repeat split; auto; [lia|]. rewrite Hl.
           unfold waiting_round. rewrite <- !app_assoc. reflexivity.
Qed.

(** The part of [measure] from the sensing lookup on. *)
Lemma sensing_sound (fuel : nat) (f_hz now : R) (ptx_dbm : option R)
      (me : NodePair tb) (w : World tb) (l : list (event tb)) (pre : list (event tb)) :
  tx_mismatch tb me f_hz ptx_dbm = false ->
  pre = EvTime now :: tx_events tb me now f_hz ptx_dbm ->
  forall o st',
    bind tb (get_self tb) (fun me0 =>
      match get_sweep_config tb (sensor_cl me0) f_hz f_hz 400000 with
      | None => raise tb cannot_scan
      | Some sweep_config =>
          let sensor_p := mkSpectrumSensorProgram sweep_config (now + 3) 10 1 in
          bind tb (call_sensor_program tb (sensor me0) sensor_p) (fun _ =>
          bind tb (wait_complete tb fuel (sensor me0) sensor_p) (fun _ =>
          bind tb (call_retrieve tb (sensor me0) sensor_p) (fun result =>
          match Np.column0 (get_data tb result) with
          | Some c => ret tb c
          | None => raise tb IndexError
          end)))
      end) (mkState me w (l ++ pre)) = (o, st') ->
    self st' = me /\
    exists evs, log st' = l ++ evs /\ measure_run tb fuel me now f_hz ptx_dbm o evs.
Proof.
  intros Hmis Hpre o st' H. subst pre.
  unfold bind at 1 in H. unfold get_self in H. cbn [self] in H.
  destruct (get_sweep_config tb (sensor_cl me) f_hz f_hz 400000) as [sc|] eqn:Esw.
  - cbv zeta in H. unfold bind at 1 in H.
    unfold call_sensor_program, record in H. cbn [self world log] in H.
    unfold bind at 1 in H.
    match type of H with
    | context [wait_complete tb fuel ?n ?p ?s] =>
        destruct (wait_complete tb fuel n p s) as [o1 st1] eqn:Ew
    end.
    apply wait_complete_run in Ew. cbn [self world log] in Ew.
    destruct Ew as [Hs [k [_ [[Ho [Hk [Hw Hl]]] | [Ho [Hk [Hw Hl]]]]]]]; subst o1.
    + inversion H; subst o st'. split; [exact Hs|].
      eexists. split.
      * rewrite Hl. rewrite <- !app_assoc. reflexivity.
      * cbn [app]. subst k. apply (run_waiting tb fuel me now f_hz ptx_dbm sc Hmis Esw).
    + unfold bind at 1 in H. unfold call_retrieve, record in H.
      destruct (sensor_retrieve tb (sensor me)
                  (mkSpectrumSensorProgram sc (now + 3) 10 1) (world st1))
        as [result w'] eqn:Er.
      pose proof (run_retrieved tb fuel me now f_hz ptx_dbm sc k result Hk Hmis Esw) as Hrun.
      cbv zeta in Hrun.
      destruct (Np.column0 (get_data tb result)) as [c|];
        inversion H; subst o st'; cbn [self log];
        (split; [exact Hs|]);
        (eexists; split; [|exact Hrun]);
        rewrite Hl; rewrite <- !app_assoc; reflexivity.
  - inversion H; subst o st'. cbn [self log]. split; [reflexivity|].
    eexists. split; [reflexivity|].
    apply (run_rx_mismatch tb fuel me now f_hz ptx_dbm Hmis Esw).
Qed.

(** One call of [measure] follows one of the four shapes of [measure_run],
    and leaves the object as it was. *)
Lemma measure_sound (fuel : nat) (f_hz : R) (ptx_dbm : option R) :
  forall st o st',
    measure tb fuel f_hz ptx_dbm st = (o, st') ->
    self st' = self st /\
    exists evs,
      log st' = log st ++ evs /\
      measure_run tb fuel (self st) (fst (time_time tb (world st))) f_hz ptx_dbm o evs.
Proof.
  intros st o st' H.
  unfold measure in H. unfold bind at 1 in H. unfold call_time, record in H.
  destruct (time_time tb (world st)) as [now w0] eqn:Et. cbn [fst].
  unfold bind at 1 in H.
  destruct ptx_dbm as [p|].
  - unfold bind at 1 in H. unfold get_self in H. cbn [self] in H.
    destruct (get_tx_config tb (generator_cl (self st)) f_hz p) as [tc|] eqn:Etx.
    + unfold call_generator_program, record in H. cbn [self world log] in H.
      rewrite <- app_assoc in H.
      eapply sensing_sound in H; [exact H| |].
      * unfold tx_mismatch. rewrite Etx. reflexivity.
      * unfold tx_events. rewrite Etx. reflexivity.
    + unfold raise in H. inversion H; subst o st'. cbn [self log].
      split; [reflexivity|]. eexists. split; [reflexivity|].
      apply run_tx_mismatch. unfold tx_mismatch. rewrite Etx. reflexivity.
  - unfold ret in H.
    eapply sensing_sound in H; [exact H| |]; reflexivity.
Qed.

(** Once both measurements have returned their series, [get_channel_gain]
    prints its report and returns the estimate in closed form. *)
Lemma get_channel_gain_returns (fuel : nat) (f_hz p : R) :
  forall st noise st1 signal st2,
    measure tb fuel f_hz None st = (Return noise, st1) ->
    measure tb fuel f_hz (Some p) st1 = (Return signal, st2) ->
    get_channel_gain tb fuel f_hz (Some p) st =
    (Return (mw_to_db (gain_linear noise signal p)),
     mkState (self st2) (world st2) (log st2 ++ report tb noise signal p)).
Proof.
  intros st noise st1 signal st2 Hn Hs.
  unfold get_channel_gain. unfold bind at 1. rewrite Hn.
  unfold bind at 1. rewrite Hs.
  unfold bind, print, record, ret. cbn [self world log].
  unfold report, gain_linear, mean_mw. rewrite <- !app_assoc. reflexivity.
Qed.

(** Whatever happens, [get_channel_gain] runs the noise measurement first and
    then, if that returned, the signal measurement; it stops where the first
    of them stops. *)
Lemma get_channel_gain_cases (fuel : nat) (f_hz : R) (ptx_dbm : option R) :
  forall st o st',
    get_channel_gain tb fuel f_hz ptx_dbm st = (o, st') ->
    (exists o1, measure tb fuel f_hz None st = (o1, st') /\
                (forall c, o1 <> Return c)) \/
    (exists noise st1,
        measure tb fuel f_hz None st = (Return noise, st1) /\
        ((exists o2, measure tb fuel f_hz ptx_dbm st1 = (o2, st') /\
                     (forall c, o2 <> Return c)) \/
         (exists signal st2,
             measure tb fuel f_hz ptx_dbm st1 = (Return signal, st2) /\
             self st' = self st2 /\
             match ptx_dbm with
             | Some p => log st' = log st2 ++ report tb noise signal p
             | None => log st' = log st2
             end))).
Proof.
  intros st o st' H.
  unfold get_channel_gain in H. unfold bind at 1 in H.
  destruct (measure tb fuel f_hz None st) as [o1 st1] eqn:Hn.
  destruct o1 as [noise|e|].
  - right. exists noise, st1. split; [reflexivity|].
    unfold bind at 1 in H.
    destruct (measure tb fuel f_hz ptx_dbm st1) as [o2 st2] eqn:Hs.
    destruct o2 as [signal|e|].
    + right. exists signal, st2. split; [reflexivity|].
      destruct ptx_dbm as [p|].
      * unfold bind, print, record, ret in H. cbn [self world log] in H.
        inversion H; subst o st'. cbn [self log]. split; [reflexivity|].
        unfold report, gain_linear, mean_mw. rewrite <- !app_assoc. reflexivity.
      * unfold raise in H. inversion H; subst o st'. split; reflexivity.
    + left. exists (Raise e). inversion H; subst. split; [reflexivity|].
      intros c Hc; discriminate.
    + left. exists Diverge. inversion H; subst. split; [reflexivity|].
      intros c Hc; discriminate.
  - left. exists (Raise e). inversion H; subst. split; [reflexivity|].
    intros c Hc; discriminate.
  - left. exists Diverge. inversion H; subst. split; [reflexivity|].
    intros c Hc; discriminate.
Qed.

(** No shape of [measure_run] contains a configuration query. *)
Lemma waiting_rounds_no_query (k : nat) (n : Node tb) (p : SensProgram tb) :
  filter is_config_query (waiting_rounds tb k n p) = [].
Proof.
  induction k as [|k IH]; [reflexivity|]. cbn. exact IH.
Qed.

Lemma tx_events_no_query (me : NodePair tb) (now f_hz : R) (ptx_dbm : option R) :
  filter is_config_query (tx_events tb me now f_hz ptx_dbm) = [].
Proof.
  unfold tx_events. destruct ptx_dbm as [p|]; [|reflexivity].
  destruct (get_tx_config tb (generator_cl me) f_hz p); reflexivity.
Qed.

Lemma measure_run_no_query (fuel : nat) (me : NodePair tb) (now f_hz : R) (ptx_dbm : option R)
      (o : outcome (list R)) (evs : list (event tb)) :
  measure_run tb fuel me now f_hz ptx_dbm o evs ->
  filter is_config_query evs = [].
Proof.
  intros H. destruct H; cbn [filter is_config_query];
    rewrite ?filter_app; cbn [filter is_config_query];
    rewrite ?filter_app, ?tx_events_no_query, ?waiting_rounds_no_query;
    reflexivity.
Qed.

Lemma report_no_query (noise signal : list R) (p : R) :
  filter is_config_query (report tb noise signal p) = [].
Proof. reflexivity. Qed.

End Runs.

(** ** Arithmetic of the estimate *)

Lemma ln_10_pos : 0 < ln 10.
Proof. rewrite <- ln_1. apply ln_increasing; lra. Qed.

Lemma log10_pos (x : R) : 0 < x -> Np.log10 x = Np.Finite (ln x / ln 10).
Proof.
  intro Hx. unfold Np.log10.
  destruct (total_order_T 0 x) as [[Hlt|Heq]|Hgt]; [reflexivity|lra|lra].
Qed.

Lemma log10_zero : Np.log10 0 = Np.NegInf.
Proof.
  unfold Np.log10.
  destruct (total_order_T 0 0) as [[Hlt|Heq]|Hgt]; [lra|reflexivity|lra].
Qed.

Lemma log10_neg (x : R) : x < 0 -> Np.log10 x = Np.NaN.
Proof.
  intro Hx. unfold Np.log10.
  destruct (total_order_T 0 x) as [[Hlt|Heq]|Hgt]; [lra|lra|reflexivity].
Qed.

Lemma mw_to_db_pos (x : R) : 0 < x -> mw_to_db x = Np.Finite (10 * (ln x / ln 10)).
Proof. intro Hx. unfold mw_to_db. rewrite (log10_pos x Hx). reflexivity. Qed.

Lemma db_to_mw_pos (db : R) : 0 < db_to_mw db.
Proof. unfold db_to_mw, Rpower. apply exp_pos. Qed.

Lemma db_to_mw_increasing (a b : R) : a < b -> db_to_mw a < db_to_mw b.
Proof.
  intro Hab. unfold db_to_mw. apply Rpower_lt; lra.
Qed.

Lemma INR_length_pos (xs : list R) : xs <> [] -> 0 < INR (length xs).
Proof.
  intro H. destruct xs as [|x xs]; [congruence|].
  apply lt_0_INR. cbn. lia.
Qed.

(** Raising every reading raises the linear sum. *)
Lemma sum_mw_le (xs ys : list R) :
  Forall2 Rlt xs ys ->
  Np.sum (map db_to_mw xs) <= Np.sum (map db_to_mw ys).
Proof.
  intro H. unfold Np.sum.
  induction H as [|x y xs ys Hxy _ IH]; cbn.
  - lra.
  - pose proof (db_to_mw_increasing x y Hxy). lra.
Qed.

Lemma sum_mw_lt (xs ys : list R) :
  xs <> [] ->
  Forall2 Rlt xs ys ->
  Np.sum (map db_to_mw xs) < Np.sum (map db_to_mw ys).
Proof.
  intros Hne H. destruct H as [|x y xs ys Hxy Hrest]; [congruence|].
  pose proof (db_to_mw_increasing x y Hxy).
  pose proof (sum_mw_le xs ys Hrest) as Hle.
  unfold Np.sum in *. cbn. lra.
Qed.

Lemma mean_mw_lt (xs ys : list R) :
  xs <> [] ->
  Forall2 Rlt xs ys ->
  mean_mw xs < mean_mw ys.
Proof.
  intros Hne H. unfold mean_mw, Np.mean.
  rewrite !length_map. rewrite <- (Forall2_length H).
  pose proof (INR_length_pos xs Hne) as Hlen.
  pose proof (sum_mw_lt xs ys Hne H) as Hsum.
  unfold Rdiv. apply Rmult_lt_compat_r; [|exact Hsum].
  apply Rinv_0_lt_compat. exact Hlen.
Qed.

(** A column taken by [column0] has a reading for every row, so at least
    one. *)
Lemma column0_nonempty (data : list (list R)) (c : list R) :
  Np.column0 data = Some c -> c <> [].
Proof.
  unfold Np.column0. destruct data as [|row rest]; [discriminate|].
  destruct row as [|x row]; [discriminate|].
  destruct (forallb _ rest); [|discriminate].
  intro H. inversion H. discriminate.
Qed.

(** ** The gain estimate *)

(** C1. When both power measurements of [get_channel_gain] return their
    series, the value returned is [10 * log10 g], where [g] is the mean of
    [10^(s/10)] over the signal series, minus the mean of [10^(n/10)] over the
    noise series, divided by [10^(ptx_dbm/10)]: samples are made linear
    before they are averaged, and only the two means enter the gain.  For
    positive [g] the value is the finite number [10 * (ln g / ln 10)]. *)
Theorem get_channel_gain_formula
        (tb : Testbed) (fuel : nat) (f_hz ptx_dbm : R)
        (st st1 st2 : State tb) (noise signal : list R) :
  measure tb fuel f_hz None st = (Return noise, st1) ->
  measure tb fuel f_hz (Some ptx_dbm) st1 = (Return signal, st2) ->
  let linear := map (fun db => Rpower 10 (db / 10)) in
  let average := fun xs => fold_right Rplus 0 xs / INR (length xs) in
  let g := (average (linear signal) - average (linear noise))
           / Rpower 10 (ptx_dbm / 10) in
  fst (get_channel_gain tb fuel f_hz (Some ptx_dbm) st)
  = Return (Np.scale 10 (Np.log10 g)) /\
  (0 < g ->
   fst (get_channel_gain tb fuel f_hz (Some ptx_dbm) st)
   = Return (Np.Finite (10 * (ln g / ln 10)))).
Proof.
  intros Hn Hs linear average g.
  rewrite (get_channel_gain_returns tb fuel f_hz ptx_dbm st noise st1 signal st2 Hn Hs).
  cbn [fst].
  change (mw_to_db (gain_linear noise signal ptx_dbm)) with (mw_to_db g).
  split.
  - reflexivity.
  - intro Hg. rewrite (mw_to_db_pos g Hg). reflexivity.
Qed.

Lemma get_channel_gain_formula_room :
  let g := (mean_mw [-40; -41; -39] - mean_mw [-80; -82; -79]) / db_to_mw 0 in
  fst (get_channel_gain Lab.testbed 5 Lab.f_hz (Some 0) (Lab.start Lab.room))
  = Return (Np.scale 10 (Np.log10 g)) /\
  (0 < g ->
   fst (get_channel_gain Lab.testbed 5 Lab.f_hz (Some 0) (Lab.start Lab.room))
   = Return (Np.Finite (10 * (ln g / ln 10)))).
Proof.
  eapply (get_channel_gain_formula Lab.testbed 5 Lab.f_hz 0 (Lab.start Lab.room)).
  - cbn. reflexivity.
  - cbn. reflexivity.
Defined.

(** Every series [measure] returns has at least one reading. *)
Lemma measure_returns_nonempty
      (tb : Testbed) (fuel : nat) (f_hz : R) (ptx_dbm : option R)
      (st st' : State tb) (c : list R) :
  measure tb fuel f_hz ptx_dbm st = (Return c, st') -> c <> [].
Proof.
  intro H. apply measure_sound in H. destruct H as [_ [evs [_ Hrun]]].
  remember (Return c) as o eqn:Eo.
  destruct Hrun as [| | |sc k result _ _ _ sensor_p]; try discriminate.
  destruct (Np.column0 (get_data tb result)) as [c'|] eqn:Ec; [|discriminate].
  inversion Eo; subst c'. exact (column0_nonempty _ _ Ec).
Qed.

(** C4, as the code has it.  [get_channel_gain] makes no test on the sign of
    the linear gain: when the mean linear signal power equals the mean linear
    noise power it returns negative infinity, and when it is smaller it
    returns NaN; in both cases it returns normally, after printing its
    report, and no exception is raised. *)
Theorem get_channel_gain_below_noise
        (tb : Testbed) (fuel : nat) (f_hz ptx_dbm : R)
        (st st1 st2 : State tb) (noise signal : list R) :
  measure tb fuel f_hz None st = (Return noise, st1) ->
  measure tb fuel f_hz (Some ptx_dbm) st1 = (Return signal, st2) ->
  mean_mw signal <= mean_mw noise ->
  (mean_mw signal = mean_mw noise ->
   fst (get_channel_gain tb fuel f_hz (Some ptx_dbm) st) = Return Np.NegInf) /\
  (mean_mw signal < mean_mw noise ->
   fst (get_channel_gain tb fuel f_hz (Some ptx_dbm) st) = Return Np.NaN) /\
  (forall e, fst (get_channel_gain tb fuel f_hz (Some ptx_dbm) st) <> Raise e) /\
  log (snd (get_channel_gain tb fuel f_hz (Some ptx_dbm) st))
  = log st2 ++ report tb noise signal ptx_dbm.
Proof.
  intros Hn Hs Hle.
  rewrite (get_channel_gain_returns tb fuel f_hz ptx_dbm st noise st1 signal st2 Hn Hs).
  cbn [fst snd log].
  pose proof (db_to_mw_pos ptx_dbm) as Hp.
  repeat split.
  - intro Heq. unfold gain_linear. rewrite Heq.
    replace ((mean_mw noise - mean_mw noise) / db_to_mw ptx_dbm) with 0
      by (field; lra).
    unfold mw_to_db. rewrite log10_zero. reflexivity.
  - intro Hlt. unfold mw_to_db. rewrite log10_neg; [reflexivity|].
    pose proof (Rinv_0_lt_compat _ Hp) as Hi.
    unfold gain_linear, Rdiv. nra.
  - intros e He. discriminate.
Qed.

Lemma get_channel_gain_below_noise_flat_room :
  (mean_mw [-80] = mean_mw [-80] ->
   fst (get_channel_gain Lab.testbed 1 Lab.f_hz (Some 0) (Lab.start Lab.flat_room))
   = Return Np.NegInf) /\
  (mean_mw [-80] < mean_mw [-80] ->
   fst (get_channel_gain Lab.testbed 1 Lab.f_hz (Some 0) (Lab.start Lab.flat_room))
   = Return Np.NaN) /\
  (forall e,
      fst (get_channel_gain Lab.testbed 1 Lab.f_hz (Some 0) (Lab.start Lab.flat_room))
      <> Raise e) /\
  log (snd (get_channel_gain Lab.testbed 1 Lab.f_hz (Some 0) (Lab.start Lab.flat_room)))
  = log (snd (measure Lab.testbed 1 Lab.f_hz (Some 0)
                (snd (measure Lab.testbed 1 Lab.f_hz None (Lab.start Lab.flat_room)))))
    ++ report Lab.testbed [-80] [-80] 0.
Proof.
  eapply (get_channel_gain_below_noise Lab.testbed 1 Lab.f_hz 0
            (Lab.start Lab.flat_room)
            (snd (measure Lab.testbed 1 Lab.f_hz None (Lab.start Lab.flat_room)))
            (snd (measure Lab.testbed 1 Lab.f_hz (Some 0)
                    (snd (measure Lab.testbed 1 Lab.f_hz None (Lab.start Lab.flat_room)))))
            [-80] [-80]).
  - cbn. reflexivity.
  - cbn. reflexivity.
  - apply Rle_refl.
Defined.

(** C4, as the claim has it, fails: with the signal mean equal to the noise
    mean the call returns a value (negative infinity) where the claim wants a
    condition raised. *)
Lemma get_channel_gain_flat_room_returns :
  mean_mw [-80] <= mean_mw [-80] /\
  measure Lab.testbed 1 Lab.f_hz None (Lab.start Lab.flat_room)
  = (Return [-80], snd (measure Lab.testbed 1 Lab.f_hz None (Lab.start Lab.flat_room))) /\
  fst (measure Lab.testbed 1 Lab.f_hz (Some 0)
         (snd (measure Lab.testbed 1 Lab.f_hz None (Lab.start Lab.flat_room))))
  = Return [-80] /\
  fst (get_channel_gain Lab.testbed 1 Lab.f_hz (Some 0) (Lab.start Lab.flat_room))
  = Return Np.NegInf /\
  ~ (exists e,
        fst (get_channel_gain Lab.testbed 1 Lab.f_hz (Some 0) (Lab.start Lab.flat_room))
        = Raise e).
Proof.
  assert (Hret :
    fst (get_channel_gain Lab.testbed 1 Lab.f_hz (Some 0) (Lab.start Lab.flat_room))
    = Return Np.NegInf).
  { erewrite (get_channel_gain_returns Lab.testbed 1 Lab.f_hz 0
                (Lab.start Lab.flat_room) [-80] _ [-80] _);
      [|cbn; reflexivity|cbn; reflexivity].
    cbn [fst]. unfold gain_linear.
    replace ((mean_mw [-80] - mean_mw [-80]) / db_to_mw 0) with 0
      by (pose proof (db_to_mw_pos 0); field; lra).
    unfold mw_to_db. rewrite log10_zero. reflexivity. }
  split; [apply Rle_refl|].
  split; [cbn; reflexivity|].
  split; [cbn; reflexivity|].
  split; [exact Hret|].
  intros [e He]. rewrite Hret in He. discriminate.
Qed.

(** C8, as the code has it.  The signal mean that enters the gain is
    [np.mean] of the linear values of the readings the second measurement
    retrieved, and nothing else; the transmit power given to
    [get_channel_gain] only divides the difference of the two means.  So,
    after the same noise measurement, two calls whose second measurements
    retrieve the same readings use and print the same signal mean, whatever
    their two transmit powers: raising the power does not by itself raise
    the mean. *)
Theorem signal_mean_from_readings_alone
        (tb : Testbed) (fuel : nat) (f_hz p1 p2 : R)
        (st st1 st2 st2' : State tb) (noise signal : list R) :
  measure tb fuel f_hz None st = (Return noise, st1) ->
  measure tb fuel f_hz (Some p1) st1 = (Return signal, st2) ->
  measure tb fuel f_hz (Some p2) st1 = (Return signal, st2') ->
  let linear := map (fun db => Rpower 10 (db / 10)) in
  let average := fun xs => fold_right Rplus 0 xs / INR (length xs) in
  let prx_mw_mean := average (linear signal) in
  let pnoise_mw_mean := average (linear noise) in
  (fst (get_channel_gain tb fuel f_hz (Some p1) st)
   = Return (mw_to_db ((prx_mw_mean - pnoise_mw_mean) / Rpower 10 (p1 / 10))) /\
   log (snd (get_channel_gain tb fuel f_hz (Some p1) st))
   = log st2
     ++ [EvPrint (MsgNoise (mw_to_db pnoise_mw_mean) pnoise_mw_mean
                    (Np.std (linear noise)));
         EvPrint (MsgRx (mw_to_db prx_mw_mean) prx_mw_mean (Np.std (linear signal)));
         EvPrint (MsgH (mw_to_db ((prx_mw_mean - pnoise_mw_mean)
                                  / Rpower 10 (p1 / 10))))]) /\
  (fst (get_channel_gain tb fuel f_hz (Some p2) st)
   = Return (mw_to_db ((prx_mw_mean - pnoise_mw_mean) / Rpower 10 (p2 / 10))) /\
   log (snd (get_channel_gain tb fuel f_hz (Some p2) st))
   = log st2'
     ++ [EvPrint (MsgNoise (mw_to_db pnoise_mw_mean) pnoise_mw_mean
                    (Np.std (linear noise)));
         EvPrint (MsgRx (mw_to_db prx_mw_mean) prx_mw_mean (Np.std (linear signal)));
         EvPrint (MsgH (mw_to_db ((prx_mw_mean - pnoise_mw_mean)
                                  / Rpower 10 (p2 / 10))))]).
Proof.
  intros Hn Hs1 Hs2 linear average prx_mw_mean pnoise_mw_mean.
  rewrite (get_channel_gain_returns tb fuel f_hz p1 st noise st1 signal st2 Hn Hs1).
  rewrite (get_channel_gain_returns tb fuel f_hz p2 st noise st1 signal st2' Hn Hs2).
  cbn [fst snd log].
  repeat split; reflexivity.
Qed.

Lemma signal_mean_from_readings_alone_flat_room :
  let st := Lab.start Lab.flat_room in
  let st1 := snd (measure Lab.testbed 1 Lab.f_hz None st) in
  let st2 := snd (measure Lab.testbed 1 Lab.f_hz (Some 0) st1) in
  let st2' := snd (measure Lab.testbed 1 Lab.f_hz (Some 10) st1) in
  let m := mean_mw [-80] in
  (fst (get_channel_gain Lab.testbed 1 Lab.f_hz (Some 0) st)
   = Return (mw_to_db ((m - m) / db_to_mw 0)) /\
   log (snd (get_channel_gain Lab.testbed 1 Lab.f_hz (Some 0) st))
   = log st2
     ++ [EvPrint (MsgNoise (mw_to_db m) m (Np.std (map db_to_mw [-80])));
         EvPrint (MsgRx (mw_to_db m) m (Np.std (map db_to_mw [-80])));
         EvPrint (MsgH (mw_to_db ((m - m) / db_to_mw 0)))]) /\
  (fst (get_channel_gain Lab.testbed 1 Lab.f_hz (Some 10) st)
   = Return (mw_to_db ((m - m) / db_to_mw 10)) /\
   log (snd (get_channel_gain Lab.testbed 1 Lab.f_hz (Some 10) st))
   = log st2'
     ++ [EvPrint (MsgNoise (mw_to_db m) m (Np.std (map db_to_mw [-80])));
         EvPrint (MsgRx (mw_to_db m) m (Np.std (map db_to_mw [-80])));
         EvPrint (MsgH (mw_to_db ((m - m) / db_to_mw 10)))]).
Proof.
  intros st st1 st2 st2' m.
  apply (signal_mean_from_readings_alone Lab.testbed 1 Lab.f_hz 0 10
           st st1 st2 st2' [-80] [-80]).
  - cbn. reflexivity.
  - cbn. reflexivity.
  - cbn. reflexivity.
Defined.

(** C8, as the claim has it, fails: in a room where the sensor reads the same
    power at both settings, raising the transmit power from 0 to 10 dBm after
    the same noise measurement leaves the signal mean where it was. *)
Lemma signal_mean_flat_room_unchanged :
  exists st1 st2 st2',
    measure Lab.testbed 1 Lab.f_hz None (Lab.start Lab.flat_room) = (Return [-80], st1) /\
    measure Lab.testbed 1 Lab.f_hz (Some 0) st1 = (Return [-80], st2) /\
    measure Lab.testbed 1 Lab.f_hz (Some 10) st1 = (Return [-80], st2') /\
    0 < 10 /\
    ~ (mean_mw [-80] < mean_mw [-80]).
Proof.
  eexists. eexists. eexists.
  split; [cbn; reflexivity|].
  split; [cbn; reflexivity|].
  split; [cbn; reflexivity|].
  split; [lra|].
  apply Rlt_irrefl.
Qed.

(** ** The order of the samples *)

(** On doubles, with a C library that is right at five points, the noise
    readings 160, 0 and 10 dBm against the same three readings as signal give
    a gain of negative infinity in one order of the signal and of 0 dB in
    another: the sum of 1e16, 1 and 10 depends on where the small terms
    come. *)
Lemma h_mean_db_two_orders (pow : float -> float -> float) (log10 : float -> float) :
  Ieee.c_library pow log10 ->
  Ieee.h_mean_db pow log10 [160; 0; 10]%float [160; 0; 10]%float 0%float
  = neg_infinity /\
  Ieee.h_mean_db pow log10 [160; 0; 10]%float [0; 10; 160]%float 0%float
  = 0%float.
Proof.
  intros [Hp0 [Hp1 [Hp16 [Hl0 Hl1]]]].
  unfold Ieee.h_mean_db, Ieee.db_to_mw, Ieee.mw_to_db, Ieee.mean, Ieee.count.
  cbn [map fold_left length].
  replace (160 / 10)%float with 16%float by (vm_compute; reflexivity).
  replace (0 / 10)%float with 0%float by (vm_compute; reflexivity).
  replace (10 / 10)%float with 1%float by (vm_compute; reflexivity).
  rewrite Hp0, Hp1, Hp16.
  split.
  - match goal with
    | |- (10 * log10 ?x)%float = _ =>
        replace x with 0%float by (vm_compute; reflexivity)
    end.
    rewrite Hl0. vm_compute. reflexivity.
  - match goal with
    | |- (10 * log10 ?x)%float = _ =>
        replace x with 1%float by (vm_compute; reflexivity)
    end.
    rewrite Hl1. vm_compute. reflexivity.
Qed.

Lemma c_library_at_points : Ieee.c_library Ieee.pow_at_points Ieee.log10_at_points.
Proof. repeat split; vm_compute; reflexivity. Qed.

Lemma zero_is_not_neg_infinity : 0%float <> neg_infinity.
Proof.
  intro H.
  assert (E : PrimFloat.is_infinity 0%float = PrimFloat.is_infinity neg_infinity)
    by (rewrite H; reflexivity).
  vm_compute in E. discriminate.
Qed.




(** ** What one measurement sends to the nodes *)

Section Traces.

Variable tb : Testbed.

(** [measure_sound] for the run itself rather than for a given result. *)
Lemma measure_new_events (fuel : nat) (f_hz : R) (ptx_dbm : option R) (st : State tb) :
  self (snd (measure tb fuel f_hz ptx_dbm st)) = self st /\
  exists evs,
    log (snd (measure tb fuel f_hz ptx_dbm st)) = log st ++ evs /\
    measure_run tb fuel (self st) (fst (time_time tb (world st))) f_hz ptx_dbm
      (fst (measure tb fuel f_hz ptx_dbm st)) evs.
Proof.
  destruct (measure tb fuel f_hz ptx_dbm st) as [o st'] eqn:H.
  exact (measure_sound tb fuel f_hz ptx_dbm st o st' H).
Qed.

Lemma waiting_rounds_no_program (k : nat) (n : Node tb) (p : SensProgram tb) :
  filter is_program (waiting_rounds tb k n p) = [].
Proof.
  induction k as [|k IH]; [reflexivity|]. cbn. exact IH.
Qed.

Lemma waiting_rounds_no_generator_call (k : nat) (n : Node tb) (p : SensProgram tb) :
  filter is_generator_call (waiting_rounds tb k n p) = [].
Proof.
  induction k as [|k IH]; [reflexivity|]. cbn. exact IH.
Qed.

Lemma tx_events_programs (me : NodePair tb) (now f_hz : R) (ptx_dbm : option R) :
  filter is_program (tx_events tb me now f_hz ptx_dbm)
  = tx_events tb me now f_hz ptx_dbm.
Proof.
  unfold tx_events. destruct ptx_dbm as [p|]; [|reflexivity].
  destruct (get_tx_config tb (generator_cl me) f_hz p); reflexivity.
Qed.

Lemma tx_events_mismatch (me : NodePair tb) (now f_hz : R) (ptx_dbm : option R) :
  tx_mismatch tb me f_hz ptx_dbm = true ->
  tx_events tb me now f_hz ptx_dbm = [].
Proof.
  unfold tx_mismatch, tx_events. destruct ptx_dbm as [p|]; [|reflexivity].
  destruct (get_tx_config tb (generator_cl me) f_hz p); [discriminate|reflexivity].
Qed.

(** The programs one call of [measure] submits, in order. *)
Lemma measure_run_programs (fuel : nat) (me : NodePair tb) (now f_hz : R) (ptx_dbm : option R)
      (o : outcome (list R)) (evs : list (event tb)) :
  measure_run tb fuel me now f_hz ptx_dbm o evs ->
  filter is_program evs
  = tx_events tb me now f_hz ptx_dbm
    ++ match get_sweep_config tb (sensor_cl me) f_hz f_hz 400000 with
       | Some sweep_config =>
           if tx_mismatch tb me f_hz ptx_dbm then []
           else [EvSensorProgram (sensor me)
                   (mkSpectrumSensorProgram sweep_config (now + 3) 10 1)]
       | None => []
       end.
Proof.
  intros H.
  destruct H as [Hmis|Hmis Hsw|sc Hmis Hsw sensor_p|sc k result Hk Hmis Hsw sensor_p];
    cbn [filter is_program].
  - rewrite (tx_events_mismatch me now f_hz ptx_dbm Hmis), Hmis.
    destruct (get_sweep_config tb (sensor_cl me) f_hz f_hz 400000); reflexivity.
  - rewrite Hsw, tx_events_programs, app_nil_r. reflexivity.
  - rewrite Hsw, Hmis, filter_app, tx_events_programs. cbn [filter is_program].
    rewrite waiting_rounds_no_program. reflexivity.
  - rewrite Hsw, Hmis, filter_app, tx_events_programs. cbn [filter is_program].
    rewrite filter_app, waiting_rounds_no_program. reflexivity.
Qed.

(** A silent measurement makes no call on the transmitting node. *)
Lemma measure_run_silent (fuel : nat) (me : NodePair tb) (now f_hz : R)
      (o : outcome (list R)) (evs : list (event tb)) :
  measure_run tb fuel me now f_hz None o evs ->
  filter is_generator_call evs = [].
Proof.
  intros H.
  destruct H as [Hmis|Hmis Hsw|sc Hmis Hsw sensor_p|sc k result Hk Hmis Hsw sensor_p];
    cbn [filter is_generator_call tx_events app];
    rewrite ?filter_app, ?waiting_rounds_no_generator_call; reflexivity.
Qed.

(** Up to its polling loop, [measure] does what [loop_entry] says. *)
Lemma measure_enters_loop (fuel : nat) (f_hz : R) (ptx_dbm : option R)
      (st : State tb) (sweep_config : SweepConfig tb) :
  tx_mismatch tb (self st) f_hz ptx_dbm = false ->
  get_sweep_config tb (sensor_cl (self st)) f_hz f_hz 400000 = Some sweep_config ->
  let me := self st in
  let now := fst (time_time tb (world st)) in
  let sensor_p := mkSpectrumSensorProgram sweep_config (now + 3) 10 1 in
  measure tb fuel f_hz ptx_dbm st
  = bind tb (wait_complete tb fuel (sensor me) sensor_p) (fun _ =>
    bind tb (call_retrieve tb (sensor me) sensor_p) (fun result =>
    match Np.column0 (get_data tb result) with
    | Some c => ret tb c
    | None => raise tb IndexError
    end))
      (mkState me (loop_entry tb me f_hz ptx_dbm sweep_config (world st))
         (log st ++ EvTime now :: tx_events tb me now f_hz ptx_dbm
            ++ [EvSensorProgram (sensor me) sensor_p])).
Proof.
  intros Hmis Hsw me now sensor_p. subst me now sensor_p.
  unfold measure, loop_entry, tx_mismatch, tx_events in *.
  unfold bind at 1. unfold call_time, record.
  destruct (time_time tb (world st)) as [now w0]. cbn [fst].
  unfold bind at 1.
  destruct ptx_dbm as [p|].
  - unfold bind at 1. unfold get_self. cbn [self].
    destruct (get_tx_config tb (generator_cl (self st)) f_hz p) as [tc|];
      [|discriminate].
    unfold call_generator_program, record. cbn [self world log].
    unfold bind at 1. unfold get_self. cbn [self]. rewrite Hsw.
    cbv zeta. unfold bind at 1. unfold call_sensor_program, record.
    cbn [self world log]. rewrite <- !app_assoc. reflexivity.
  - unfold ret at 1.
    unfold bind at 1. unfold get_self. cbn [self]. rewrite Hsw.
    cbv zeta. unfold bind at 1. unfold call_sensor_program, record.
    cbn [self world log]. rewrite <- !app_assoc. reflexivity.
Qed.

Lemma waiting_rounds_add (j k : nat) (n : Node tb) (p : SensProgram tb) :
  waiting_rounds tb (j + k) n p = waiting_rounds tb j n p ++ waiting_rounds tb k n p.
Proof.
  induction j as [|j IH]; [reflexivity|].
  cbn [Nat.add waiting_rounds]. rewrite IH, app_assoc. reflexivity.
Qed.

(** While the node keeps answering "not complete", the loop keeps going. *)
Lemma wait_complete_busy (fuel k : nat) (n : Node tb) (p : SensProgram tb)
      (st : State tb) :
  busy_for tb k n p (world st) ->
  ((fuel <= k)%nat -> fst (wait_complete tb fuel n p st) = Diverge) /\
  ((k <= fuel)%nat ->
   exists rest,
     log (snd (wait_complete tb fuel n p st))
     = log st ++ waiting_rounds tb k n p ++ rest).
Proof.
  intro Hbusy.
  destruct (wait_complete tb fuel n p st) as [o st'] eqn:E.
  apply wait_complete_run in E.
  destruct E as [_ [k' [_ [[Ho [Hk [_ Hl]]] | [Ho [Hk [Hw Hl]]]]]]]; cbn [fst snd].
  - split; [intros _; exact Ho|].
    intro Hle. exists (waiting_rounds tb (k' - k) n p).
    rewrite Hl, <- waiting_rounds_add. do 2 f_equal. lia.
  - assert (Hge : (k <= k')%nat).
    { destruct (le_lt_dec k k') as [Hle|Hlt]; [exact Hle|].
      specialize (Hbusy k' Hlt). rewrite Hw in Hbusy. discriminate. }
    split; [intro Hle; lia|].
    intros _. exists (waiting_rounds tb (k' - k) n p ++ [EvIsComplete n p true]).
    rewrite Hl, (app_assoc (waiting_rounds tb k n p)), <- waiting_rounds_add.
    replace (k + (k' - k))%nat with k' by lia. reflexivity.
Qed.

(** Once the node answers "complete", the loop stops there. *)
Lemma wait_complete_completes (fuel k : nat) (n : Node tb) (p : SensProgram tb)
      (st : State tb) :
  busy_for tb k n p (world st) ->
  fst (sensor_is_complete tb n p (after_rounds tb k n p (world st))) = true ->
  (k < fuel)%nat ->
  fst (wait_complete tb fuel n p st) = Return tt /\
  log (snd (wait_complete tb fuel n p st))
  = log st ++ waiting_rounds tb k n p ++ [EvIsComplete n p true].
Proof.
  intros Hbusy Hdone Hlt.
  destruct (wait_complete tb fuel n p st) as [o st'] eqn:E.
  apply wait_complete_run in E.
  destruct E as [_ [k' [Hbusy' [[Ho [Hk [_ Hl]]] | [Ho [Hk [Hw Hl]]]]]]]; cbn [fst snd].
  - subst k'. rewrite (Hbusy' k Hlt) in Hdone. discriminate.
  - assert (Hk' : k' = k).
    { destruct (lt_eq_lt_dec k' k) as [[Hlt'|Heq]|Hgt]; [|exact Heq|].
      - specialize (Hbusy k' Hlt'). rewrite Hw in Hbusy. discriminate.
      - rewrite (Hbusy' k Hgt) in Hdone. discriminate. }
    subst k'. split; [exact Ho|exact Hl].
Qed.

End Traces.

(** ** Claims about one measurement *)

(** C2, as the code has it.  When the transmit lookup or the sensing lookup
    comes back empty, [measure] raises the generic exception "Node can not
    scan specified frequency range." and never programs the sensor.  It
    programs no node at all when the transmit lookup is the empty one, or
    when no transmission was asked for; but when transmission was asked for
    and its lookup succeeded, the generator has been programmed (start
    [T0 + 1], duration 14) by the time the sensing lookup fails. *)
Theorem measure_capability_mismatch
        (tb : Testbed) (fuel : nat) (f_hz : R) (ptx_dbm : option R) (st : State tb) :
  let me := self st in
  let T0 := fst (time_time tb (world st)) in
  tx_mismatch tb me f_hz ptx_dbm = true \/
  get_sweep_config tb (sensor_cl me) f_hz f_hz 400000 = None ->
  fst (measure tb fuel f_hz ptx_dbm st) = Raise cannot_scan /\
  self (snd (measure tb fuel f_hz ptx_dbm st)) = me /\
  (exists evs,
      log (snd (measure tb fuel f_hz ptx_dbm st)) = log st ++ EvTime T0 :: evs /\
      filter is_program (EvTime T0 :: evs) = evs /\
      (tx_mismatch tb me f_hz ptx_dbm = true -> evs = []) /\
      (ptx_dbm = None -> evs = []) /\
      (forall p tx_config,
          ptx_dbm = Some p ->
          get_tx_config tb (generator_cl me) f_hz p = Some tx_config ->
          evs = [EvGeneratorProgram (generator me)
                   (mkSignalGeneratorProgram tx_config (T0 + 1) 14)])).
Proof.
  intros me T0 Hmiss. subst me T0.
  destruct (measure_new_events tb fuel f_hz ptx_dbm st) as [Hself [evs [Hlog Hrun]]].
  destruct (measure tb fuel f_hz ptx_dbm st) as [o st'] eqn:E. cbn [fst snd] in *.
  assert (Hshape : o = Raise cannot_scan /\
                   evs = EvTime (fst (time_time tb (world st)))
                         :: tx_events tb (self st) (fst (time_time tb (world st)))
                              f_hz ptx_dbm).
  { destruct Hrun as [Hmis|Hmis Hsw|sc Hmis Hsw sensor_p|sc k result Hk Hmis Hsw sensor_p].
    - rewrite (tx_events_mismatch tb _ _ _ _ Hmis). split; reflexivity.
    - split; reflexivity.
    - destruct Hmiss as [Hm|Hm]; congruence.
    - destruct Hmiss as [Hm|Hm]; congruence. }
  destruct Hshape as [Ho Hevs]. subst o evs.
  split; [reflexivity|]. split; [exact Hself|].
  eexists. split; [exact Hlog|].
  split; [cbn [filter is_program]; apply tx_events_programs|].
  split; [apply tx_events_mismatch|].
  split.
  - intro Hnone. rewrite Hnone. reflexivity.
  - intros p tc Hp Htc. rewrite Hp. unfold tx_events. rewrite Htc. reflexivity.
Qed.

Lemma measure_capability_mismatch_deaf_room :
  fst (measure Lab.testbed 5 Lab.f_hz (Some 0) (Lab.start Lab.deaf_room))
  = Raise cannot_scan /\
  self (snd (measure Lab.testbed 5 Lab.f_hz (Some 0) (Lab.start Lab.deaf_room)))
  = self (Lab.start Lab.deaf_room) /\
  (exists evs,
      log (snd (measure Lab.testbed 5 Lab.f_hz (Some 0) (Lab.start Lab.deaf_room)))
      = log (Lab.start Lab.deaf_room) ++ EvTime 0 :: evs /\
      filter is_program (EvTime 0 :: evs) = evs /\
      (tx_mismatch Lab.testbed (self (Lab.start Lab.deaf_room)) Lab.f_hz (Some 0) = true ->
       evs = []) /\
      (Some 0 = None -> evs = []) /\
      (forall p tx_config,
          Some 0 = Some p ->
          get_tx_config Lab.testbed (generator_cl (self (Lab.start Lab.deaf_room)))
            Lab.f_hz p = Some tx_config ->
          evs = [EvGeneratorProgram Lab.txnode
                   (mkSignalGeneratorProgram tx_config (0 + 1) 14)])).
Proof.
  apply (measure_capability_mismatch Lab.testbed 5 Lab.f_hz (Some 0)
           (Lab.start Lab.deaf_room)).
  right. reflexivity.
Defined.

(** C2, as the claim has it, fails: in a room whose receiving node does not
    cover the band the sensing lookup is empty and [measure] raises, yet the
    transmitting node has been programmed. *)
Lemma measure_deaf_room_programs_generator :
  get_sweep_config Lab.testbed (sensor_cl (self (Lab.start Lab.deaf_room)))
    Lab.f_hz Lab.f_hz 400000 = None /\
  fst (measure Lab.testbed 5 Lab.f_hz (Some 0) (Lab.start Lab.deaf_room))
  = Raise cannot_scan /\
  filter is_program
    (log (snd (measure Lab.testbed 5 Lab.f_hz (Some 0) (Lab.start Lab.deaf_room))))
  = [EvGeneratorProgram Lab.txnode
       (mkSignalGeneratorProgram (Lab.f_hz, 0) (0 + 1) 14)] /\
  filter is_program
    (log (snd (measure Lab.testbed 5 Lab.f_hz (Some 0) (Lab.start Lab.deaf_room))))
  <> filter is_program (log (Lab.start Lab.deaf_room)).
Proof.
  split; [reflexivity|].
  split; [reflexivity|].
  split; [reflexivity|].
  cbn. discriminate.
Qed.

(** C3. A call of [measure] that asks for a transmission and finds both
    configurations submits exactly two programs, the generator's and then the
    sensor's.  With [T0] the clock reading, the generator starts at [T0 + 1]
    and runs for 14, the sensor starts at [T0 + 3] and runs for 10; so the
    generator starts no later than the sensor, the sensor stops no later than
    the generator, the sensor runs for strictly less, and two units separate
    the windows at either end. *)
Theorem measure_schedule_nested
        (tb : Testbed) (fuel : nat) (f_hz p : R) (st : State tb)
        (tx_config : TxConfig tb) (sweep_config : SweepConfig tb) :
  get_tx_config tb (generator_cl (self st)) f_hz p = Some tx_config ->
  get_sweep_config tb (sensor_cl (self st)) f_hz f_hz 400000 = Some sweep_config ->
  let T0 := fst (time_time tb (world st)) in
  exists generator_p sensor_p evs,
    log (snd (measure tb fuel f_hz (Some p) st)) = log st ++ evs /\
    filter is_program evs
    = [EvGeneratorProgram (generator (self st)) generator_p;
       EvSensorProgram (sensor (self st)) sensor_p] /\
    sgp_tx_config generator_p = tx_config /\
    ssp_sweep_config sensor_p = sweep_config /\
    sgp_time_start generator_p = T0 + 1 /\
    sgp_time_duration generator_p = 14%Z /\
    ssp_time_start sensor_p = T0 + 3 /\
    ssp_time_duration sensor_p = 10%Z /\
    sgp_time_start generator_p <= ssp_time_start sensor_p /\
    ssp_time_stop sensor_p <= sgp_time_stop generator_p /\
    (ssp_time_duration sensor_p < sgp_time_duration generator_p)%Z /\
    2 <= ssp_time_start sensor_p - sgp_time_start generator_p /\
    2 <= sgp_time_stop generator_p - ssp_time_stop sensor_p.
Proof.
  intros Htx Hsw T0.
  destruct (measure_new_events tb fuel f_hz (Some p) st) as [_ [evs [Hlog Hrun]]].
  apply measure_run_programs in Hrun. fold T0 in Hrun.
  unfold tx_events, tx_mismatch in Hrun. rewrite Htx, Hsw in Hrun.
  exists (mkSignalGeneratorProgram tx_config (T0 + 1) 14),
         (mkSpectrumSensorProgram sweep_config (T0 + 3) 10 1), evs.
  split; [exact Hlog|]. split; [exact Hrun|].
  unfold sgp_time_stop, ssp_time_stop. cbn.
  repeat split; try reflexivity; try lra; try lia.
Qed.

Lemma measure_schedule_nested_room :
  exists generator_p sensor_p evs,
    log (snd (measure Lab.testbed 5 Lab.f_hz (Some 0) (Lab.start Lab.room)))
    = log (Lab.start Lab.room) ++ evs /\
    filter is_program evs
    = [EvGeneratorProgram Lab.txnode generator_p;
       EvSensorProgram Lab.rxnode sensor_p] /\
    sgp_tx_config generator_p = (Lab.f_hz, 0) /\
    ssp_sweep_config sensor_p = (Lab.f_hz, Lab.f_hz, 400000) /\
    sgp_time_start generator_p = 0 + 1 /\
    sgp_time_duration generator_p = 14%Z /\
    ssp_time_start sensor_p = 0 + 3 /\
    ssp_time_duration sensor_p = 10%Z /\
    sgp_time_start generator_p <= ssp_time_start sensor_p /\
    ssp_time_stop sensor_p <= sgp_time_stop generator_p /\
    (ssp_time_duration sensor_p < sgp_time_duration generator_p)%Z /\
    2 <= ssp_time_start sensor_p - sgp_time_start generator_p /\
    2 <= sgp_time_stop generator_p - ssp_time_stop sensor_p.
Proof.
  apply (measure_schedule_nested Lab.testbed 5 Lab.f_hz 0 (Lab.start Lab.room)
           (Lab.f_hz, 0) (Lab.f_hz, Lab.f_hz, 400000)).
  - reflexivity.
  - reflexivity.
Defined.

(** C5. A call of [measure] without transmit power makes no call on the
    transmitting node.  The only program it submits is the sensor's, which
    starts at [T0 + 3] and runs for 10 (none, if the sensing lookup is empty);
    and any sensing program a call with transmit power submits from the same
    state is that same program, so the offset from [T0] is the same in both
    kinds of measurement. *)
Theorem measure_noise_only
        (tb : Testbed) (fuel : nat) (f_hz : R) (st : State tb) :
  let me := self st in
  let T0 := fst (time_time tb (world st)) in
  exists evs,
    log (snd (measure tb fuel f_hz None st)) = log st ++ evs /\
    filter is_generator_call evs = [] /\
    filter is_program evs
    = match get_sweep_config tb (sensor_cl me) f_hz f_hz 400000 with
      | Some sweep_config =>
          [EvSensorProgram (sensor me)
             (mkSpectrumSensorProgram sweep_config (T0 + 3) 10 1)]
      | None => []
      end /\
    (forall n sensor_p, In (EvSensorProgram n sensor_p) evs ->
                        ssp_time_start sensor_p = T0 + 3) /\
    (forall fuel' p evs',
        log (snd (measure tb fuel' f_hz (Some p) st)) = log st ++ evs' ->
        forall n sensor_p,
          In (EvSensorProgram n sensor_p) evs' ->
          ssp_time_start sensor_p = T0 + 3 /\ In (EvSensorProgram n sensor_p) evs).
Proof.
  intros me T0.
  destruct (measure_new_events tb fuel f_hz None st) as [_ [evs [Hlog Hrun]]].
  fold me T0 in Hrun.
  pose proof (measure_run_silent tb fuel me T0 f_hz _ evs Hrun) as Hsilent.
  pose proof (measure_run_programs tb fuel me T0 f_hz None _ evs Hrun) as Hprog.
  cbn [tx_events tx_mismatch app] in Hprog.
  assert (Hin : forall n sensor_p,
             In (EvSensorProgram n sensor_p) evs ->
             exists sweep_config,
               get_sweep_config tb (sensor_cl me) f_hz f_hz 400000 = Some sweep_config /\
               n = sensor me /\
               sensor_p = mkSpectrumSensorProgram sweep_config (T0 + 3) 10 1).
  { intros n sp Hi.
    assert (Hf : In (EvSensorProgram n sp) (filter is_program evs))
      by (apply filter_In; split; [exact Hi|reflexivity]).
    rewrite Hprog in Hf.
    destruct (get_sweep_config tb (sensor_cl me) f_hz f_hz 400000) as [sc|];
      [|contradiction].
    destruct Hf as [Hf|[]]. inversion Hf. exists sc. auto. }
  exists evs. split; [exact Hlog|]. split; [exact Hsilent|]. split; [exact Hprog|].
  split.
  - intros n sp Hi. destruct (Hin n sp Hi) as [sc [_ [_ Hsp]]]. subst sp. reflexivity.
  - intros fuel' p evs' Hlog' n sp Hi.
    destruct (measure_new_events tb fuel' f_hz (Some p) st) as [_ [evs2 [Hlog2 Hrun2]]].
    fold me T0 in Hrun2.
    rewrite Hlog' in Hlog2. apply app_inv_head in Hlog2. subst evs2.
    pose proof (measure_run_programs tb fuel' me T0 f_hz (Some p) _ evs' Hrun2) as Hprog2.
    assert (Hf : In (EvSensorProgram n sp) (filter is_program evs'))
      by (apply filter_In; split; [exact Hi|reflexivity]).
    rewrite Hprog2 in Hf. apply in_app_or in Hf.
    destruct Hf as [Hf|Hf].
    + unfold tx_events in Hf.
      destruct (get_tx_config tb (generator_cl me) f_hz p); [|contradiction].
      destruct Hf as [Hf|[]]. discriminate.
    + destruct (get_sweep_config tb (sensor_cl me) f_hz f_hz 400000) as [sc|] eqn:Hsw;
        [|contradiction].
      destruct (tx_mismatch tb me f_hz (Some p)); [contradiction|].
      destruct Hf as [Hf|[]]. inversion Hf. subst n sp.
      split; [reflexivity|].
      assert (Hf' : In (EvSensorProgram (sensor me)
                          (mkSpectrumSensorProgram sc (T0 + 3) 10 1))
                       (filter is_program evs))
        by (rewrite Hprog; left; reflexivity).
      apply filter_In in Hf'. exact (proj1 Hf').
Qed.

(** C6. In every run of [measure] the events after the programs are turns of
    the polling loop, each one a test that came out false, the line
    "waiting..." and a sleep of 2; the retrieval is there only as the last
    event and only right after a test that came out true, and a run that has
    not seen that test has not returned.  The loop has no bound of its own:
    if the node answers "not complete" to the first [k] polls, a run allowed
    at most [k] tests of the condition is still waiting, and a run allowed
    more goes through all [k] turns; if the node then answers "complete",
    such a run retrieves the result at once. *)
Theorem measure_polls_until_complete
        (tb : Testbed) (fuel : nat) (f_hz : R) (ptx_dbm : option R) (st : State tb) :
  let me := self st in
  let T0 := fst (time_time tb (world st)) in
  let run := measure tb fuel f_hz ptx_dbm st in
  (exists head polls tail,
      log (snd run) = log st ++ head ++ polls ++ tail /\
      filter is_poll head = [] /\
      ((polls = [] /\ tail = [] /\ fst run = Raise cannot_scan)
       \/
       (exists sweep_config k,
           get_sweep_config tb (sensor_cl me) f_hz f_hz 400000 = Some sweep_config /\
           let sensor_p := mkSpectrumSensorProgram sweep_config (T0 + 3) 10 1 in
           polls = waiting_rounds tb k (sensor me) sensor_p /\
           ((tail = [] /\ k = fuel /\ fst run = Diverge)
            \/
            (tail = [EvIsComplete (sensor me) sensor_p true;
                     EvRetrieve (sensor me) sensor_p] /\
             (k < fuel)%nat /\ fst run <> Diverge))))) /\
  (forall sweep_config k,
      tx_mismatch tb me f_hz ptx_dbm = false ->
      get_sweep_config tb (sensor_cl me) f_hz f_hz 400000 = Some sweep_config ->
      let sensor_p := mkSpectrumSensorProgram sweep_config (T0 + 3) 10 1 in
      busy_for tb k (sensor me) sensor_p
        (loop_entry tb me f_hz ptx_dbm sweep_config (world st)) ->
      ((fuel <= k)%nat -> fst run = Diverge) /\
      ((k <= fuel)%nat ->
       exists rest,
         log (snd run)
         = log st ++ EvTime T0 :: tx_events tb me T0 f_hz ptx_dbm
             ++ EvSensorProgram (sensor me) sensor_p
             :: waiting_rounds tb k (sensor me) sensor_p ++ rest) /\
      ((k < fuel)%nat ->
       fst (sensor_is_complete tb (sensor me) sensor_p
              (after_rounds tb k (sensor me) sensor_p
                 (loop_entry tb me f_hz ptx_dbm sweep_config (world st)))) = true ->
       fst run <> Diverge /\
       log (snd run)
       = log st ++ EvTime T0 :: tx_events tb me T0 f_hz ptx_dbm
           ++ EvSensorProgram (sensor me) sensor_p
           :: waiting_rounds tb k (sensor me) sensor_p
           ++ [EvIsComplete (sensor me) sensor_p true;
               EvRetrieve (sensor me) sensor_p])).
Proof.
  intros me T0 run. split.
  - subst run.
    destruct (measure tb fuel f_hz ptx_dbm st) as [o st'] eqn:E.
    apply measure_sound in E. destruct E as [_ [evs [Hlog Hrun]]].
    fold me T0 in Hrun. cbn [fst snd].
    assert (Htx : filter is_poll (tx_events tb me T0 f_hz ptx_dbm) = []).
    { unfold tx_events. destruct ptx_dbm as [p|]; [|reflexivity].
      destruct (get_tx_config tb (generator_cl me) f_hz p); reflexivity. }
    destruct Hrun as [Hmis|Hmis Hsw|sc Hmis Hsw sensor_p|sc k result Hk Hmis Hsw sensor_p].
    + exists [EvTime T0], [], []. split; [exact Hlog|].
      split; [reflexivity|]. left. auto.
    + exists (EvTime T0 :: tx_events tb me T0 f_hz ptx_dbm), [], [].
      split; [rewrite Hlog, !app_nil_r; reflexivity|].
      split; [exact Htx|]. left. auto.
    + exists (EvTime T0 :: tx_events tb me T0 f_hz ptx_dbm
                ++ [EvSensorProgram (sensor me) sensor_p]),
             (waiting_rounds tb fuel (sensor me) sensor_p), [].
      split.
      { rewrite Hlog, app_nil_r. cbn [app]. rewrite <- app_assoc. reflexivity. }
      split.
      { cbn [filter is_poll]. rewrite filter_app, Htx. reflexivity. }
      right. exists sc, fuel. split; [exact Hsw|]. cbv zeta.
      split; [reflexivity|]. left. auto.
    + exists (EvTime T0 :: tx_events tb me T0 f_hz ptx_dbm
                ++ [EvSensorProgram (sensor me) sensor_p]),
             (waiting_rounds tb k (sensor me) sensor_p),
             [EvIsComplete (sensor me) sensor_p true; EvRetrieve (sensor me) sensor_p].
      split.
      { rewrite Hlog. cbn [app]. rewrite <- app_assoc. reflexivity. }
      split.
      { cbn [filter is_poll]. rewrite filter_app, Htx. reflexivity. }
      right. exists sc, k. split; [exact Hsw|]. cbv zeta.
      split; [reflexivity|]. right.
      split; [reflexivity|]. split; [exact Hk|].
      destruct (Np.column0 (get_data tb result)); discriminate.
  - intros sc k Hmis Hsw sensor_p Hbusy. subst run.
    pose proof (measure_enters_loop tb fuel f_hz ptx_dbm st sc Hmis Hsw) as E.
    cbv zeta in E. fold me T0 sensor_p in E.
    set (st_loop := mkState me (loop_entry tb me f_hz ptx_dbm sc (world st))
                      (log st ++ EvTime T0 :: tx_events tb me T0 f_hz ptx_dbm
                         ++ [EvSensorProgram (sensor me) sensor_p])) in E.
    rewrite E. clear E.
    destruct (wait_complete_busy tb fuel k (sensor me) sensor_p st_loop Hbusy)
      as [Hshort Hlong].
    pose proof (wait_complete_completes tb fuel k (sensor me) sensor_p st_loop Hbusy)
      as Hdone.
    unfold bind at 1 3 5 7.
    destruct (wait_complete tb fuel (sensor me) sensor_p st_loop) as [o1 st1].
    cbn [fst snd] in Hshort, Hlong, Hdone.
    assert (Hassoc : forall mid more,
               (log st_loop ++ waiting_rounds tb k (sensor me) sensor_p ++ mid) ++ more
               = log st ++ EvTime T0 :: tx_events tb me T0 f_hz ptx_dbm
                   ++ EvSensorProgram (sensor me) sensor_p
                   :: waiting_rounds tb k (sensor me) sensor_p ++ mid ++ more).
    { intros mid more. subst st_loop. cbn [log].
      rewrite <- !app_assoc. cbn [app]. rewrite <- !app_assoc. reflexivity. }
    split; [|split].
    + intro Hle. rewrite (Hshort Hle). reflexivity.
    + intro Hle. destruct (Hlong Hle) as [rest Hrest].
      destruct o1 as [[]|e|].
      * unfold bind, call_retrieve, record.
        destruct (sensor_retrieve tb (sensor me) sensor_p (world st1)) as [result w'].
        exists (rest ++ [EvRetrieve (sensor me) sensor_p]).
        destruct (Np.column0 (get_data tb result)); unfold ret, raise;
          cbn [snd log]; rewrite Hrest; apply Hassoc.
      * exists rest. cbn [snd].
        rewrite <- (app_nil_r (log st1)), Hrest, Hassoc, app_nil_r. reflexivity.
      * exists rest. cbn [snd].
        rewrite <- (app_nil_r (log st1)), Hrest, Hassoc, app_nil_r. reflexivity.
    + intros Hlt Htrue. destruct (Hdone Htrue Hlt) as [Ho Hl]. subst o1.
      unfold bind, call_retrieve, record.
      destruct (sensor_retrieve tb (sensor me) sensor_p (world st1)) as [result w'].
      destruct (Np.column0 (get_data tb result)); unfold ret, raise;
        cbn [fst snd log]; (split; [discriminate|]);
        rewrite Hl; apply (Hassoc [EvIsComplete (sensor me) sensor_p true]).
Qed.

Lemma measure_polls_until_complete_room :
  let st := Lab.start Lab.room in
  let sensor_p := mkSpectrumSensorProgram (Lab.f_hz, Lab.f_hz, 400000) (0 + 3) 10 1 in
  ((5 <= 2)%nat -> fst (measure Lab.testbed 5 Lab.f_hz None st) = Diverge) /\
  ((2 <= 5)%nat ->
   exists rest,
     log (snd (measure Lab.testbed 5 Lab.f_hz None st))
     = log st ++ EvTime 0 :: tx_events Lab.testbed (self st) 0 Lab.f_hz None
         ++ EvSensorProgram Lab.rxnode sensor_p
         :: waiting_rounds Lab.testbed 2 Lab.rxnode sensor_p ++ rest) /\
  ((2 < 5)%nat ->
   true = true ->
   fst (measure Lab.testbed 5 Lab.f_hz None st) <> Diverge /\
   log (snd (measure Lab.testbed 5 Lab.f_hz None st))
   = log st ++ EvTime 0 :: tx_events Lab.testbed (self st) 0 Lab.f_hz None
       ++ EvSensorProgram Lab.rxnode sensor_p
       :: waiting_rounds Lab.testbed 2 Lab.rxnode sensor_p
       ++ [EvIsComplete Lab.rxnode sensor_p true; EvRetrieve Lab.rxnode sensor_p]).
Proof.
  intros st sensor_p.
  apply (proj2 (measure_polls_until_complete Lab.testbed 5 Lab.f_hz None st)
           (Lab.f_hz, Lab.f_hz, 400000) 2%nat).
  - reflexivity.
  - reflexivity.
  - intros i Hi. destruct i as [|[|i]]; [reflexivity|reflexivity|lia].
Defined.

(** ** The configuration lists *)

(** [get_channel_gain] leaves the object as it was and adds no configuration
    query to the log. *)
Lemma get_channel_gain_frame
      (tb : Testbed) (fuel : nat) (f_hz : R) (ptx_dbm : option R) (st : State tb) :
  self (snd (get_channel_gain tb fuel f_hz ptx_dbm st)) = self st /\
  exists evs,
    log (snd (get_channel_gain tb fuel f_hz ptx_dbm st)) = log st ++ evs /\
    filter is_config_query evs = [].
Proof.
  destruct (get_channel_gain tb fuel f_hz ptx_dbm st) as [o st'] eqn:E.
  cbn [snd].
  apply get_channel_gain_cases in E.
  destruct E as [[o1 [H1 _]] | [noise [st1 [H1 H2]]]].
  - apply measure_sound in H1. destruct H1 as [Hs [evs [Hl Hrun]]].
    split; [exact Hs|]. exists evs. split; [exact Hl|].
    exact (measure_run_no_query tb _ _ _ _ _ _ _ Hrun).
  - apply measure_sound in H1. destruct H1 as [Hs1 [evs1 [Hl1 Hrun1]]].
    apply measure_run_no_query in Hrun1.
    destruct H2 as [[o2 [H2 _]] | [signal [st2 [H2 [Hs' Hl']]]]].
    + apply measure_sound in H2. destruct H2 as [Hs2 [evs2 [Hl2 Hrun2]]].
      apply measure_run_no_query in Hrun2.
      split; [congruence|]. exists (evs1 ++ evs2).
      split; [rewrite Hl2, Hl1, app_assoc; reflexivity|].
      rewrite filter_app, Hrun1, Hrun2. reflexivity.
    + apply measure_sound in H2. destruct H2 as [Hs2 [evs2 [Hl2 Hrun2]]].
      apply measure_run_no_query in Hrun2.
      split; [congruence|].
      destruct ptx_dbm as [p|].
      * exists (evs1 ++ evs2 ++ report tb noise signal p).
        split; [rewrite Hl', Hl2, Hl1, <- !app_assoc; reflexivity|].
        rewrite !filter_app, Hrun1, Hrun2, report_no_query. reflexivity.
      * exists (evs1 ++ evs2).
        split; [rewrite Hl', Hl2, Hl1, app_assoc; reflexivity|].
        rewrite filter_app, Hrun1, Hrun2. reflexivity.
Qed.

(** C7. The constructor asks each node for its configuration list exactly
    once and keeps the two answers in the object.  Neither [measure] nor
    [get_channel_gain] asks again or changes the object, so the lists they
    look configurations up in are the ones the constructor stored; over a
    whole run of [main] each node is asked exactly once. *)
Theorem config_lists_queried_once
        (tb : Testbed) (fuel : nat) (f_hz : R) (ptx_dbm : option R)
        (txnode rxnode : Node tb) (w : World tb) (st : State tb) :
  let pair := NodePair_init tb txnode rxnode w in
  (filter is_config_query (log pair)
   = [EvGeneratorGetConfigList txnode; EvSensorGetConfigList rxnode] /\
   generator_cl (self pair) = fst (generator_get_config_list tb txnode w) /\
   sensor_cl (self pair)
   = fst (sensor_get_config_list tb rxnode
            (snd (generator_get_config_list tb txnode w)))) /\
  (self (snd (measure tb fuel f_hz ptx_dbm st)) = self st /\
   exists evs,
     log (snd (measure tb fuel f_hz ptx_dbm st)) = log st ++ evs /\
     filter is_config_query evs = []) /\
  (self (snd (get_channel_gain tb fuel f_hz ptx_dbm st)) = self st /\
   exists evs,
     log (snd (get_channel_gain tb fuel f_hz ptx_dbm st)) = log st ++ evs /\
     filter is_config_query evs = []) /\
  (self (snd (main tb fuel txnode rxnode w)) = self pair /\
   filter is_config_query (log (snd (main tb fuel txnode rxnode w)))
   = [EvGeneratorGetConfigList txnode; EvSensorGetConfigList rxnode]).
Proof.
  intro pair.
  assert (Hinit :
    filter is_config_query (log pair)
    = [EvGeneratorGetConfigList txnode; EvSensorGetConfigList rxnode] /\
    generator_cl (self pair) = fst (generator_get_config_list tb txnode w) /\
    sensor_cl (self pair)
    = fst (sensor_get_config_list tb rxnode
             (snd (generator_get_config_list tb txnode w)))).
  { subst pair. unfold NodePair_init.
    destruct (generator_get_config_list tb txnode w) as [gcl w1]. cbn [fst snd].
    destruct (sensor_get_config_list tb rxnode w1) as [scl w2]. cbn.
    auto. }
  split; [exact Hinit|].
  split.
  - destruct (measure_new_events tb fuel f_hz ptx_dbm st) as [Hs [evs [Hl Hrun]]].
    split; [exact Hs|]. exists evs. split; [exact Hl|].
    exact (measure_run_no_query tb _ _ _ _ _ _ _ Hrun).
  - split; [apply get_channel_gain_frame|].
    unfold main. fold pair.
    destruct (get_channel_gain_frame tb fuel 2425000000 (Some 0) pair)
      as [Hs [evs [Hl Hq]]].
    split; [exact Hs|].
    rewrite Hl, filter_app, Hq, app_nil_r. exact (proj1 Hinit).
Qed.

(** ** Runs on the bench *)

Example column0_rectangular : Np.column0 [[1; 2]; [3; 4]] = Some [1; 3].
Proof. reflexivity. Qed.

Example column0_ragged : Np.column0 [[1; 2]; [3]] = None.
Proof. reflexivity. Qed.

Example column0_no_rows : Np.column0 [] = None.
Proof. reflexivity. Qed.

Example column0_no_columns : Np.column0 [[]; []] = None.
Proof. reflexivity. Qed.

(** The sensor of [Lab.room] completes on the third poll: five tests of the
    loop condition are enough, two are not. *)
Example measure_room_noise :
  fst (measure Lab.testbed 5 Lab.f_hz None (Lab.start Lab.room))
  = Return [-80; -82; -79].
Proof. reflexivity. Qed.

Example measure_room_still_waiting :
  fst (measure Lab.testbed 2 Lab.f_hz None (Lab.start Lab.room)) = Diverge.
Proof. reflexivity. Qed.

(** A transmitting node that does not cover the band: the call stops after
    reading the clock. *)
Example measure_mute_room :
  fst (measure Lab.testbed 5 Lab.f_hz (Some 0) (Lab.start Lab.mute_room))
  = Raise cannot_scan /\
  log (snd (measure Lab.testbed 5 Lab.f_hz (Some 0) (Lab.start Lab.mute_room)))
  = log (Lab.start Lab.mute_room) ++ [EvTime 0].
Proof. split; reflexivity. Qed.

(** Without a transmit power [get_channel_gain] measures twice and then
    fails on the conversion. *)
Example get_channel_gain_without_power :
  fst (get_channel_gain Lab.testbed 5 Lab.f_hz None (Lab.start Lab.room))
  = Raise TypeError.
Proof. reflexivity. Qed.

(** The readings of [Lab.room]: the signal is above the noise and the gain is
    a finite number of decibels. *)
Example get_channel_gain_room :
  let g := gain_linear [-80; -82; -79] [-40; -41; -39] 0 in
  0 < g /\
  fst (get_channel_gain Lab.testbed 5 Lab.f_hz (Some 0) (Lab.start Lab.room))
  = Return (Np.Finite (10 * (ln g / ln 10))).
Proof.
  intro g.
  assert (Hg : 0 < g).
  { subst g. unfold gain_linear.
    assert (Hlt : mean_mw [-80; -82; -79] < mean_mw [-40; -41; -39]).
    { apply mean_mw_lt; [discriminate|].
      repeat (constructor; [lra|]). constructor. }
    pose proof (db_to_mw_pos 0) as Hp.
    apply Rdiv_lt_0_compat; lra. }
  split; [exact Hg|].
  erewrite (get_channel_gain_returns Lab.testbed 5 Lab.f_hz 0 (Lab.start Lab.room)
              [-80; -82; -79] _ [-40; -41; -39] _);
    [|cbn; reflexivity|cbn; reflexivity].
  cbn [fst]. fold g. rewrite (mw_to_db_pos g Hg). reflexivity.
Qed.

(** A signal below the noise: the value returned is NaN. *)
Example get_channel_gain_faded_room :
  fst (get_channel_gain Lab.testbed 1 Lab.f_hz (Some 0) (Lab.start Lab.faded_room))
  = Return Np.NaN.
Proof.
  erewrite (get_channel_gain_returns Lab.testbed 1 Lab.f_hz 0
              (Lab.start Lab.faded_room) [-80] _ [-90] _);
    [|cbn; reflexivity|cbn; reflexivity].
  cbn [fst]. unfold mw_to_db. rewrite log10_neg; [reflexivity|].
  assert (Hlt : mean_mw [-90] < mean_mw [-80]).
  { apply mean_mw_lt; [discriminate|]. constructor; [lra|constructor]. }
  pose proof (Rinv_0_lt_compat _ (db_to_mw_pos 0)) as Hi.
  unfold gain_linear, Rdiv. nra.
Qed.

(** * Further properties of the program *)

(** ** Taking the first column *)

Lemma forallb_same_length (m : nat) (rows : list (list R)) :
  forallb (fun r => Nat.eqb (length r) m) rows = true <->
  Forall (fun r => length r = m) rows.
Proof.
  rewrite forallb_forall, Forall_forall.
  split; intros H r Hr.
  - apply Nat.eqb_eq. exact (H r Hr).
  - apply Nat.eqb_eq. exact (H r Hr).
Qed.

(** X1. [np.array(data)[:,0]] gives a column exactly when [data] has at least one
    row and all its rows have one and the same length, which is not zero; the
    column then holds the first entry of every row, in the order of the
    rows. *)
Theorem column0_rectangular_iff (data : list (list R)) (c : list R) :
  Np.column0 data = Some c <->
  (data <> [] /\
   (exists m, (0 < m)%nat /\ Forall (fun r => length r = m) data) /\
   c = map (hd 0) data).
Proof.
  unfold Np.column0. split.
  - destruct data as [|row rest]; [discriminate|].
    destruct row as [|x row]; [discriminate|].
    destruct (forallb _ rest) eqn:E; [|discriminate].
    intro H. inversion H. split; [discriminate|]. split; [|reflexivity].
    exists (S (length row)). split; [lia|].
    constructor; [reflexivity|].
    apply forallb_same_length. exact E.
  - intros [Hne [[m [Hm Hall]] Hc]]. subst c.
    destruct data as [|row rest]; [congruence|].
    inversion Hall as [|r rs Hrow Hrest]; subst.
    destruct row as [|x row]; [cbn in Hm; lia|].
    assert (E : forallb (fun r => Nat.eqb (length r) (length (x :: row))) rest = true)
      by (apply forallb_same_length; exact Hrest).
    rewrite E. reflexivity.
Qed.

Lemma column0_rectangular_iff_two_rows :
  Np.column0 [[1; 2]; [3; 4]] = Some (map (hd 0) [[1; 2]; [3; 4]]).
Proof.
  apply (column0_rectangular_iff [[1; 2]; [3; 4]] (map (hd 0) [[1; 2]; [3; 4]])).
  split; [discriminate|]. split; [|reflexivity].
  exists 2%nat. split; [lia|]. repeat constructor.
Defined.

(** ** How a gain measurement unfolds *)

Section Phases.

Variable tb : Testbed.

Lemma get_channel_gain_noise_stops (fuel : nat) (f_hz : R) (ptx_dbm : option R)
      (st st' : State tb) (o : outcome (list R)) :
  measure tb fuel f_hz None st = (o, st') ->
  (forall c, o <> Return c) ->
  get_channel_gain tb fuel f_hz ptx_dbm st
  = (match o with
     | Return _ => Diverge
     | Raise e => Raise e
     | Diverge => Diverge
     end, st').
Proof.
  intros H Hnot. unfold get_channel_gain. unfold bind at 1. rewrite H.
  destruct o as [c|e|]; [exfalso; exact (Hnot c eq_refl)|reflexivity|reflexivity].
Qed.

Lemma get_channel_gain_signal_stops (fuel : nat) (f_hz : R) (ptx_dbm : option R)
      (st st1 st2 : State tb) (noise : list R) (o : outcome (list R)) :
  measure tb fuel f_hz None st = (Return noise, st1) ->
  measure tb fuel f_hz ptx_dbm st1 = (o, st2) ->
  (forall c, o <> Return c) ->
  get_channel_gain tb fuel f_hz ptx_dbm st
  = (match o with
     | Return _ => Diverge
     | Raise e => Raise e
     | Diverge => Diverge
     end, st2).
Proof.
  intros Hn H Hnot. unfold get_channel_gain. unfold bind at 1. rewrite Hn.
  unfold bind at 1. rewrite H.
  destruct o as [c|e|]; [exfalso; exact (Hnot c eq_refl)|reflexivity|reflexivity].
Qed.

Lemma waiting_rounds_no_report (k : nat) (n : Node tb) (p : SensProgram tb) :
  filter is_report (waiting_rounds tb k n p) = [].
Proof.
  induction k as [|k IH]; [reflexivity|]. cbn. exact IH.
Qed.

(** What the log of a call of [measure] that returned looks like. *)
Lemma measure_run_return (fuel : nat) (me : NodePair tb) (now f_hz : R)
      (ptx_dbm : option R) (c : list R) (evs : list (event tb)) :
  measure_run tb fuel me now f_hz ptx_dbm (Return c) evs ->
  exists sweep_config k result,
    (k < fuel)%nat /\
    tx_mismatch tb me f_hz ptx_dbm = false /\
    get_sweep_config tb (sensor_cl me) f_hz f_hz 400000 = Some sweep_config /\
    Np.column0 (get_data tb result) = Some c /\
    let sensor_p := mkSpectrumSensorProgram sweep_config (now + 3) 10 1 in
    evs = EvTime now :: tx_events tb me now f_hz ptx_dbm
            ++ EvSensorProgram (sensor me) sensor_p
            :: waiting_rounds tb k (sensor me) sensor_p
            ++ [EvIsComplete (sensor me) sensor_p true;
                EvRetrieve (sensor me) sensor_p].
Proof.
  intro H. remember (Return c) as o eqn:Eo.
  destruct H as [Hmis|Hmis Hsw|sc Hmis Hsw sensor_p|sc k result Hk Hmis Hsw sensor_p];
    try discriminate.
  destruct (Np.column0 (get_data tb result)) as [c'|] eqn:Ec; [|discriminate].
  inversion Eo; subst c'.
  exists sc, k, result. repeat split; assumption.
Qed.

(** With the sensing lookup empty, [measure] without transmit power stops
    after reading the clock. *)
Lemma measure_noise_rx_mismatch (fuel : nat) (f_hz : R) (st : State tb) :
  get_sweep_config tb (sensor_cl (self st)) f_hz f_hz 400000 = None ->
  exists st',
    measure tb fuel f_hz None st = (Raise cannot_scan, st') /\
    log st' = log st ++ [EvTime (fst (time_time tb (world st)))].
Proof.
  intro Hsw.
  destruct (measure tb fuel f_hz None st) as [o st'] eqn:E.
  pose proof (measure_sound tb fuel f_hz None st o st' E) as [_ [evs [Hlog Hrun]]].
  exists st'.
  destruct Hrun as [Hmis|Hmis Hsw'|sc Hmis Hsw' sensor_p|sc k result Hk Hmis Hsw' sensor_p];
    try congruence.
  - discriminate.
  - split; [reflexivity|exact Hlog].
Qed.

End Phases.

(** X6. If the receiving node cannot scan the frequency, [get_channel_gain] fails
    with the "can not scan" exception after a single clock reading: nothing
    is sent to either node, and the transmitter in particular is never
    programmed, whatever transmit power was asked for. *)
Theorem get_channel_gain_rx_mismatch
        (tb : Testbed) (fuel : nat) (f_hz : R) (ptx_dbm : option R) (st : State tb) :
  get_sweep_config tb (sensor_cl (self st)) f_hz f_hz 400000 = None ->
  fst (get_channel_gain tb fuel f_hz ptx_dbm st) = Raise cannot_scan /\
  log (snd (get_channel_gain tb fuel f_hz ptx_dbm st))
  = log st ++ [EvTime (fst (time_time tb (world st)))].
Proof.
  intro Hsw.
  destruct (measure_noise_rx_mismatch tb fuel f_hz st Hsw) as [st' [Hm Hlog]].
  rewrite (get_channel_gain_noise_stops tb fuel f_hz ptx_dbm st st' _ Hm)
    by (intros c Hc; discriminate).
  split; [reflexivity|exact Hlog].
Qed.

Lemma get_channel_gain_rx_mismatch_deaf_room :
  fst (get_channel_gain Lab.testbed 5 Lab.f_hz (Some 0) (Lab.start Lab.deaf_room))
  = Raise cannot_scan /\
  log (snd (get_channel_gain Lab.testbed 5 Lab.f_hz (Some 0) (Lab.start Lab.deaf_room)))
  = log (Lab.start Lab.deaf_room) ++ [EvTime 0].
Proof.
  apply (get_channel_gain_rx_mismatch Lab.testbed 5 Lab.f_hz (Some 0)
           (Lab.start Lab.deaf_room)).
  reflexivity.
Defined.



(** X8. Called without a transmit power, [get_channel_gain] never returns a
    value and never calls the transmitting node: it measures the noise twice
    and, if both measurements return, fails with [TypeError] on converting
    the missing power. *)
Theorem get_channel_gain_needs_power
        (tb : Testbed) (fuel : nat) (f_hz : R) (st : State tb) :
  (forall h_db, fst (get_channel_gain tb fuel f_hz None st) <> Return h_db) /\
  (exists evs,
      log (snd (get_channel_gain tb fuel f_hz None st)) = log st ++ evs /\
      filter is_generator_call evs = []) /\
  (forall noise st1 second st2,
      measure tb fuel f_hz None st = (Return noise, st1) ->
      measure tb fuel f_hz None st1 = (Return second, st2) ->
      get_channel_gain tb fuel f_hz None st = (Raise TypeError, st2)).
Proof.
  split; [|split].
  - intros h_db. unfold get_channel_gain, bind.
    destruct (measure tb fuel f_hz None st) as [[noise|e|] st1]; try discriminate.
    destruct (measure tb fuel f_hz None st1) as [[second|e|] st2]; discriminate.
  - destruct (get_channel_gain tb fuel f_hz None st) as [o st'] eqn:E. cbn [snd].
    apply get_channel_gain_cases in E.
    destruct E as [[o1 [H1 _]] | [noise [st1 [H1 H2]]]].
    + apply measure_sound in H1. destruct H1 as [_ [evs [Hl Hrun]]].
      exists evs. split; [exact Hl|]. exact (measure_run_silent tb _ _ _ _ _ _ Hrun).
    + apply measure_sound in H1. destruct H1 as [_ [evs1 [Hl1 Hrun1]]].
      apply measure_run_silent in Hrun1.
      assert (Hboth : forall o2 st2,
                 measure tb fuel f_hz None st1 = (o2, st2) ->
                 exists evs2, log st2 = log st ++ evs1 ++ evs2 /\
                              filter is_generator_call (evs1 ++ evs2) = []).
      { intros o2 st2 H. apply measure_sound in H.
        destruct H as [_ [evs2 [Hl2 Hrun2]]]. apply measure_run_silent in Hrun2.
        exists evs2. split; [rewrite Hl2, Hl1, app_assoc; reflexivity|].
        rewrite filter_app, Hrun1, Hrun2. reflexivity. }
      destruct H2 as [[o2 [H2 _]] | [second [st2 [H2 [_ Hl']]]]].
      * destruct (Hboth o2 st' H2) as [evs2 [Hl Hq]].
        exists (evs1 ++ evs2). split; assumption.
      * destruct (Hboth _ st2 H2) as [evs2 [Hl Hq]].
        exists (evs1 ++ evs2). split; [rewrite Hl'; exact Hl|exact Hq].
  - intros noise st1 second st2 Hn Hs.
    unfold get_channel_gain. unfold bind at 1. rewrite Hn.
    unfold bind at 1. rewrite Hs. reflexivity.
Qed.

(** X9. The events a gain measurement that goes through adds to the log come
    in two phases, one after the other.  In the first the sensor alone is
    programmed, three units after the first clock reading, polled, and its
    readings retrieved; the call sends nothing to the transmitting node
    before that.  Only then is the clock read again and the generator
    programmed, one unit after that second reading, followed by the sensor
    three units after it.  The report comes last.  (The call stops no
    transmission that was programmed before it.) *)
Theorem get_channel_gain_two_phases
        (tb : Testbed) (fuel : nat) (f_hz ptx_dbm : R)
        (st st1 st2 : State tb) (noise signal : list R) :
  measure tb fuel f_hz None st = (Return noise, st1) ->
  measure tb fuel f_hz (Some ptx_dbm) st1 = (Return signal, st2) ->
  let me := self st in
  let T0 := fst (time_time tb (world st)) in
  let T1 := fst (time_time tb (world st1)) in
  exists sweep_config tx_config k0 k1,
    get_sweep_config tb (sensor_cl me) f_hz f_hz 400000 = Some sweep_config /\
    get_tx_config tb (generator_cl me) f_hz ptx_dbm = Some tx_config /\
    let noise_p := mkSpectrumSensorProgram sweep_config (T0 + 3) 10 1 in
    let generator_p := mkSignalGeneratorProgram tx_config (T1 + 1) 14 in
    let signal_p := mkSpectrumSensorProgram sweep_config (T1 + 3) 10 1 in
    log (snd (get_channel_gain tb fuel f_hz (Some ptx_dbm) st))
    = log st
      ++ (EvTime T0 :: EvSensorProgram (sensor me) noise_p
            :: waiting_rounds tb k0 (sensor me) noise_p
            ++ [EvIsComplete (sensor me) noise_p true; EvRetrieve (sensor me) noise_p])
      ++ (EvTime T1 :: EvGeneratorProgram (generator me) generator_p
            :: EvSensorProgram (sensor me) signal_p
            :: waiting_rounds tb k1 (sensor me) signal_p
            ++ [EvIsComplete (sensor me) signal_p true; EvRetrieve (sensor me) signal_p])
      ++ report tb noise signal ptx_dbm.
Proof.
  intros Hn Hs me T0 T1.
  rewrite (get_channel_gain_returns tb fuel f_hz ptx_dbm st noise st1 signal st2 Hn Hs).
  cbn [snd log].
  apply measure_sound in Hn. destruct Hn as [Hself1 [evs1 [Hlog1 Hrun1]]].
  apply measure_sound in Hs. destruct Hs as [_ [evs2 [Hlog2 Hrun2]]].
  rewrite Hself1 in Hrun2. fold me T0 in Hrun1. fold me T1 in Hrun2.
  apply measure_run_return in Hrun1.
  destruct Hrun1 as [sc [k0 [r0 [_ [_ [Hsw [_ Hevs1]]]]]]].
  apply measure_run_return in Hrun2.
  destruct Hrun2 as [sc' [k1 [r1 [_ [Hmis [Hsw' [_ Hevs2]]]]]]].
  cbv zeta in Hevs1, Hevs2.
  assert (sc' = sc) by congruence. subst sc'.
  unfold tx_mismatch in Hmis. unfold tx_events in Hevs2.
  destruct (get_tx_config tb (generator_cl me) f_hz ptx_dbm) as [tc|] eqn:Htx;
    [|discriminate].
  exists sc, tc, k0, k1. split; [exact Hsw|]. split; [reflexivity|]. cbv zeta.
  rewrite Hlog2, Hlog1, Hevs1, Hevs2. cbn [tx_events app].
  rewrite <- !app_assoc. cbn [app]. rewrite <- !app_assoc. cbn [app].
  reflexivity.
Qed.

Lemma get_channel_gain_two_phases_room :
  let st := Lab.start Lab.room in
  let st1 := snd (measure Lab.testbed 5 Lab.f_hz None st) in
  let me := self st in
  let T0 := fst (time_time Lab.testbed (world st)) in
  let T1 := fst (time_time Lab.testbed (world st1)) in
  exists sweep_config tx_config k0 k1,
    get_sweep_config Lab.testbed (sensor_cl me) Lab.f_hz Lab.f_hz 400000
    = Some sweep_config /\
    get_tx_config Lab.testbed (generator_cl me) Lab.f_hz 0 = Some tx_config /\
    let noise_p := mkSpectrumSensorProgram sweep_config (T0 + 3) 10 1 in
    let generator_p := mkSignalGeneratorProgram tx_config (T1 + 1) 14 in
    let signal_p := mkSpectrumSensorProgram sweep_config (T1 + 3) 10 1 in
    log (snd (get_channel_gain Lab.testbed 5 Lab.f_hz (Some 0) st))
    = log st
      ++ (EvTime T0 :: EvSensorProgram (sensor me) noise_p
            :: waiting_rounds Lab.testbed k0 (sensor me) noise_p
            ++ [EvIsComplete (sensor me) noise_p true; EvRetrieve (sensor me) noise_p])
      ++ (EvTime T1 :: EvGeneratorProgram (generator me) generator_p
            :: EvSensorProgram (sensor me) signal_p
            :: waiting_rounds Lab.testbed k1 (sensor me) signal_p
            ++ [EvIsComplete (sensor me) signal_p true; EvRetrieve (sensor me) signal_p])
      ++ report Lab.testbed [-80; -82; -79] [-40; -41; -39] 0.
Proof.
  intros st st1.
  eapply (get_channel_gain_two_phases Lab.testbed 5 Lab.f_hz 0 st st1 _
            [-80; -82; -79] [-40; -41; -39]).
  - cbn. reflexivity.
  - cbn. reflexivity.
Defined.

(** ** Which node gets which call *)

Section Addressing.

Variable tb : Testbed.

Lemma in_waiting_rounds (k : nat) (n : Node tb) (p : SensProgram tb) (e : event tb) :
  In e (waiting_rounds tb k n p) ->
  e = EvIsComplete n p false \/ e = EvPrint MsgWaiting \/ e = EvSleep 2.
Proof.
  induction k as [|k IH]; [intros []|].
  cbn. intros [H|[H|[H|H]]]; auto.
Qed.

Lemma in_tx_events (me : NodePair tb) (now f_hz : R) (ptx_dbm : option R) (e : event tb) :
  In e (tx_events tb me now f_hz ptx_dbm) ->
  exists generator_p, e = EvGeneratorProgram (generator me) generator_p.
Proof.
  unfold tx_events. destruct ptx_dbm as [p|]; [|intros []].
  destruct (get_tx_config tb (generator_cl me) f_hz p) as [tc|]; [|intros []].
  intros [H|[]]. eexists. symmetry. exact H.
Qed.

(** Every event of one call of [measure], by kind. *)
Lemma measure_run_event (fuel : nat) (me : NodePair tb) (now f_hz : R)
      (ptx_dbm : option R) (o : outcome (list R)) (evs : list (event tb)) :
  measure_run tb fuel me now f_hz ptx_dbm o evs ->
  forall e, In e evs ->
    e = EvTime now \/
    (exists generator_p, e = EvGeneratorProgram (generator me) generator_p) \/
    e = EvPrint MsgWaiting \/
    e = EvSleep 2 \/
    (exists sensor_p,
        In (EvSensorProgram (sensor me) sensor_p) evs /\
        (e = EvSensorProgram (sensor me) sensor_p \/
         e = EvIsComplete (sensor me) sensor_p false \/
         e = EvIsComplete (sensor me) sensor_p true \/
         (e = EvRetrieve (sensor me) sensor_p /\
          In (EvIsComplete (sensor me) sensor_p true) evs))).
Proof.
  intros H e He.
  destruct H as [Hmis|Hmis Hsw|sc Hmis Hsw sensor_p|sc k result Hk Hmis Hsw sensor_p].
  - destruct He as [He|[]]. left. symmetry. exact He.
  - destruct He as [He|He]; [left; symmetry; exact He|].
    right. left. exact (in_tx_events _ _ _ _ _ He).
  - assert (Hprog : In (EvSensorProgram (sensor me) sensor_p)
                       (EvTime now :: tx_events tb me now f_hz ptx_dbm
                          ++ EvSensorProgram (sensor me) sensor_p
                          :: waiting_rounds tb fuel (sensor me) sensor_p)).
    { right. apply in_or_app. right. left. reflexivity. }
    destruct He as [He|He]; [left; symmetry; exact He|].
    apply in_app_or in He. destruct He as [He|He].
    { right. left. exact (in_tx_events _ _ _ _ _ He). }
    destruct He as [He|He].
    { right. right. right. right. exists sensor_p. split; [exact Hprog|].
      left. symmetry. exact He. }
    apply in_waiting_rounds in He. destruct He as [He|[He|He]].
    + right. right. right. right. exists sensor_p. split; [exact Hprog|]. auto.
    + right. right. left. exact He.
    + right. right. right. left. exact He.
  - set (evs := EvTime now :: tx_events tb me now f_hz ptx_dbm
                  ++ EvSensorProgram (sensor me) sensor_p
                  :: waiting_rounds tb k (sensor me) sensor_p
                  ++ [EvIsComplete (sensor me) sensor_p true;
                      EvRetrieve (sensor me) sensor_p]) in *.
    assert (Hprog : In (EvSensorProgram (sensor me) sensor_p) evs).
    { right. apply in_or_app. right. left. reflexivity. }
    assert (Hdone : In (EvIsComplete (sensor me) sensor_p true) evs).
    { right. apply in_or_app. right. right. apply in_or_app. right.
      left. reflexivity. }
    destruct He as [He|He]; [left; symmetry; exact He|].
    apply in_app_or in He. destruct He as [He|He].
    { right. left. exact (in_tx_events _ _ _ _ _ He). }
    destruct He as [He|He].
    { right. right. right. right. exists sensor_p. split; [exact Hprog|].
      left. symmetry. exact He. }
    apply in_app_or in He. destruct He as [He|He].
    + apply in_waiting_rounds in He. destruct He as [He|[He|He]].
      * right. right. right. right. exists sensor_p. split; [exact Hprog|]. auto.
      * right. right. left. exact He.
      * right. right. right. left. exact He.
    + right. right. right. right. exists sensor_p. split; [exact Hprog|].
      destruct He as [He|[He|[]]]; symmetry in He; auto.
Qed.

End Addressing.

(** X10. [measure] only ever programs the generator of its own pair and the sensor
    of its own pair; it polls and retrieves nothing but the sensing program
    it has just submitted to that sensor, and retrieves it only once that
    program has been reported complete. *)
Theorem measure_addresses_own_nodes
        (tb : Testbed) (fuel : nat) (f_hz : R) (ptx_dbm : option R) (st : State tb) :
  exists evs,
    log (snd (measure tb fuel f_hz ptx_dbm st)) = log st ++ evs /\
    (forall n generator_p,
        In (EvGeneratorProgram n generator_p) evs -> n = generator (self st)) /\
    (forall n sensor_p,
        In (EvSensorProgram n sensor_p) evs -> n = sensor (self st)) /\
    (forall n sensor_p done,
        In (EvIsComplete n sensor_p done) evs ->
        n = sensor (self st) /\ In (EvSensorProgram n sensor_p) evs) /\
    (forall n sensor_p,
        In (EvRetrieve n sensor_p) evs ->
        n = sensor (self st) /\
        In (EvSensorProgram n sensor_p) evs /\
        In (EvIsComplete n sensor_p true) evs).
Proof.
  destruct (measure_new_events tb fuel f_hz ptx_dbm st) as [_ [evs [Hlog Hrun]]].
  pose proof (measure_run_event tb _ _ _ _ _ _ _ Hrun) as Hev.
  exists evs. split; [exact Hlog|].
  split; [|split; [|split]].
  - intros n gp Hin.
    destruct (Hev _ Hin) as [H|[[gp' H]|[H|[H|[sp [_ [H|[H|[H|[H _]]]]]]]]]];
      try discriminate.
    inversion H. reflexivity.
  - intros n sp' Hin.
    destruct (Hev _ Hin) as [H|[[gp' H]|[H|[H|[sp [_ [H|[H|[H|[H _]]]]]]]]]];
      try discriminate.
    inversion H. reflexivity.
  - intros n sp' done Hin.
    destruct (Hev _ Hin) as [H|[[gp' H]|[H|[H|[sp [Hp [H|[H|[H|[H _]]]]]]]]]];
      try discriminate; inversion H; subst; split; auto.
  - intros n sp' Hin.
    destruct (Hev _ Hin) as [H|[[gp' H]|[H|[H|[sp [Hp [H|[H|[H|[H Hd]]]]]]]]]];
      try discriminate.
    inversion H; subst. auto.
Qed.

(** ** What comes back *)

Section Completion.

Variable tb : Testbed.

(** The loop, when the node answers "complete" on poll [k + 1]: outcome and
    state in full. *)
Lemma wait_complete_done (fuel k : nat) (n : Node tb) (p : SensProgram tb)
      (st : State tb) :
  busy_for tb k n p (world st) ->
  fst (sensor_is_complete tb n p (after_rounds tb k n p (world st))) = true ->
  (k < fuel)%nat ->
  wait_complete tb fuel n p st
  = (Return tt,
     mkState (self st)
       (snd (sensor_is_complete tb n p (after_rounds tb k n p (world st))))
       (log st ++ waiting_rounds tb k n p ++ [EvIsComplete n p true])).
Proof.
  intros Hbusy Hdone Hlt.
  destruct (wait_complete tb fuel n p st) as [o st'] eqn:E.
  apply wait_complete_run in E.
  destruct E as [Hs [k' [Hbusy' [[Ho [Hk [_ Hl]]] | [Ho [Hk [Hw Hl]]]]]]].
  - subst k'. rewrite (Hbusy' k Hlt) in Hdone. discriminate.
  - assert (Hk' : k' = k).
    { destruct (lt_eq_lt_dec k' k) as [[Hlt'|Heq]|Hgt]; [|exact Heq|].
      - specialize (Hbusy k' Hlt'). rewrite Hw in Hbusy. discriminate.
      - rewrite (Hbusy' k Hgt) in Hdone. discriminate. }
    subst k' o. rewrite Hw. cbn [snd].
    destruct st' as [s w l]. cbn [self world log] in *. subst s l. reflexivity.
Qed.

End Completion.

Lemma column0_is_map (data : list (list R)) (c : list R) :
  Np.column0 data = Some c -> c = map (hd 0) data.
Proof.
  unfold Np.column0. destruct data as [|row rest]; [discriminate|].
  destruct row as [|x row]; [discriminate|].
  destruct (forallb _ rest); [|discriminate].
  intro H. inversion H. reflexivity.
Qed.

(** X11. With both configurations found, a sensor that answers "not complete" to
    [k] polls and "complete" to the next, and a bound above [k], [measure]
    stops by itself: it retrieves the result right after that answer and
    returns the first entry of every record, one reading per record and in
    the order of the records; if the records do not form a table with at
    least one column, it raises [IndexError] instead. *)
Theorem measure_returns_first_column
        (tb : Testbed) (fuel k : nat) (f_hz : R) (ptx_dbm : option R)
        (st : State tb) (sweep_config : SweepConfig tb) :
  let me := self st in
  let T0 := fst (time_time tb (world st)) in
  let sensor_p := mkSpectrumSensorProgram sweep_config (T0 + 3) 10 1 in
  let w_loop := loop_entry tb me f_hz ptx_dbm sweep_config (world st) in
  let w_done :=
    snd (sensor_is_complete tb (sensor me) sensor_p
           (after_rounds tb k (sensor me) sensor_p w_loop)) in
  let data := get_data tb (fst (sensor_retrieve tb (sensor me) sensor_p w_done)) in
  tx_mismatch tb me f_hz ptx_dbm = false ->
  get_sweep_config tb (sensor_cl me) f_hz f_hz 400000 = Some sweep_config ->
  busy_for tb k (sensor me) sensor_p w_loop ->
  fst (sensor_is_complete tb (sensor me) sensor_p
         (after_rounds tb k (sensor me) sensor_p w_loop)) = true ->
  (k < fuel)%nat ->
  fst (measure tb fuel f_hz ptx_dbm st)
  = match Np.column0 data with
    | Some c => Return c
    | None => Raise IndexError
    end /\
  world (snd (measure tb fuel f_hz ptx_dbm st))
  = snd (sensor_retrieve tb (sensor me) sensor_p w_done) /\
  (forall c,
      fst (measure tb fuel f_hz ptx_dbm st) = Return c ->
      c = map (hd 0) data /\ length c = length data /\ data <> []).
Proof.
  intros me T0 sensor_p w_loop w_done data Hmis Hsw Hbusy Hdone Hlt.
  pose proof (measure_enters_loop tb fuel f_hz ptx_dbm st sweep_config Hmis Hsw) as E.
  cbv zeta in E. fold me T0 sensor_p w_loop in E.
  assert (Hrun :
    measure tb fuel f_hz ptx_dbm st
    = (match Np.column0 data with
       | Some c => Return c
       | None => Raise IndexError
       end,
       mkState me (snd (sensor_retrieve tb (sensor me) sensor_p w_done))
         ((log st ++ EvTime T0 :: tx_events tb me T0 f_hz ptx_dbm
             ++ [EvSensorProgram (sensor me) sensor_p])
            ++ waiting_rounds tb k (sensor me) sensor_p
            ++ [EvIsComplete (sensor me) sensor_p true]
            ++ [EvRetrieve (sensor me) sensor_p]))).
  { rewrite E. unfold bind at 1.
    rewrite (wait_complete_done tb fuel k (sensor me) sensor_p
               (mkState me w_loop
                  (log st ++ EvTime T0 :: tx_events tb me T0 f_hz ptx_dbm
                     ++ [EvSensorProgram (sensor me) sensor_p]))
               Hbusy Hdone Hlt).
    cbn [self world log]. fold w_done.
    unfold bind, call_retrieve, record. cbn [self world log].
    subst data.
    destruct (sensor_retrieve tb (sensor me) sensor_p w_done) as [result w'].
    cbn [fst snd].
    destruct (Np.column0 (get_data tb result)); unfold ret, raise;
      rewrite <- !app_assoc; reflexivity. }
  rewrite Hrun. cbn [fst snd world].
  split; [reflexivity|]. split; [reflexivity|].
  intros c Hc.
  destruct (Np.column0 data) as [c'|] eqn:Ec; [|discriminate].
  inversion Hc; subst c'.
  pose proof (column0_is_map data c Ec) as Hmap.
  split; [exact Hmap|]. split.
  - rewrite Hmap. apply length_map.
  - intro Hnil. rewrite Hnil in Ec. discriminate.
Qed.

Lemma measure_returns_first_column_room :
  fst (measure Lab.testbed 5 Lab.f_hz None (Lab.start Lab.room))
  = match Np.column0 [[-80]; [-82]; [-79]] with
    | Some c => Return c
    | None => Raise IndexError
    end /\
  world (snd (measure Lab.testbed 5 Lab.f_hz None (Lab.start Lab.room)))
  = Lab.mkBench (0 + 2 + 2) true true 2 0 None [[[-40]; [-41]; [-39]]] /\
  (forall c,
      fst (measure Lab.testbed 5 Lab.f_hz None (Lab.start Lab.room)) = Return c ->
      c = map (hd 0) [[-80]; [-82]; [-79]] /\
      length c = length [[-80]; [-82]; [-79]] /\
      [[-80]; [-82]; [-79]] <> []).
Proof.
  apply (measure_returns_first_column Lab.testbed 5 2 Lab.f_hz None
           (Lab.start Lab.room) (Lab.f_hz, Lab.f_hz, 400000)).
  - reflexivity.
  - reflexivity.
  - intros i Hi. destruct i as [|[|i]]; [reflexivity|reflexivity|lia].
  - reflexivity.
  - lia.
Defined.

(** ** A transmission left on the air *)

(** Nothing in the program stops a transmitter: in a room where the sensor
    hears what is on the air, the noise measurement of a second gain
    measurement reads the transmission the first one programmed. *)
Example noise_measurement_after_a_gain_measurement :
  fst (measure Lab.testbed 5 Lab.f_hz None (Lab.start Lab.open_room))
  = Return [-80] /\
  fst (measure Lab.testbed 5 Lab.f_hz None
         (snd (get_channel_gain Lab.testbed 5 Lab.f_hz (Some 0)
                 (Lab.start Lab.open_room))))
  = Return [0 - 40].
Proof. split; reflexivity. Qed.
